(** * qim-wsk: the generic CRUD service and the product facade

    A shallow embedding of
      - the CRUD consumer pattern (interface [CrudConsumer] and the response
        envelope),
      - the abstract [CrudService] of lib-qore (message factory [CrudMeta],
        [create], [read], [update], [delete], [url], [createResponse],
        [request]),
      - the [ProductFacade] of the product page ([data], [compute]).

    The embedding follows the TypeScript types of the source: a value of type
    [P | null] is an [option P], the union [string | number] of identifiers is
    an inductive type, the overloads of [read] are a return type that depends
    on the argument, and a promise is the way it settles.  What TypeScript
    leaves unchecked is kept open: the value caught by [catch] may be
    [undefined] or [null], and a call of the logger may throw.  Effects (HTTP
    requests issued, lines handed to the logger, console warnings) are threaded
    through an explicit [World].

    The repository also holds an earlier skeleton of the service class, whose
    four methods throw "Method not implemented." and whose [createReponse]
    builds [{status, message, payload}]; what follows is the implemented
    class. *)

From Stdlib Require Import ZArith List String Bool Lia DecimalString DecimalPos DecimalZ.
Import ListNotations.
Open Scope string_scope.

Set Implicit Arguments.

(** ** Values *)

(** An optional parameter [x?: A] as the callee sees it at run time: the
    argument is missing ([undefined]), [null], or a value. *)
Inductive Arg (A : Type) : Type :=
| Undefined
| Null
| Val (a : A).
Arguments Undefined {A}.
Arguments Null {A}.

(** [Entity['id']]: identifiers are strings or numbers.  The numbers are
    given as integers and stand for the safe integers of JavaScript
    (see [safe_integer]): for these [template_id] prints what a template
    literal prints. *)
Inductive UniqueId : Type :=
| IdNum (n : Z)
| IdStr (s : string).

(** Strict equality [===] on identifiers: a number never equals a string. *)
Definition strict_eq (a b : UniqueId) : bool :=
  match a, b with
  | IdNum n, IdNum m => Z.eqb n m
  | IdStr s, IdStr t => String.eqb s t
  | _, _ => false
  end.

(** JavaScript truthiness of an identifier: [0] and [""] are falsy. *)
Definition truthy (i : UniqueId) : bool :=
  match i with
  | IdNum n => negb (Z.eqb n 0)
  | IdStr s => negb (String.eqb s "")
  end.

(** [Number.isSafeInteger]: up to [Number.MAX_SAFE_INTEGER], 2^53 - 1, in
    absolute value. *)
Definition safe_integer (n : Z) : Prop := (Z.abs n <= 2 ^ 53 - 1)%Z.

(** Conversion of an identifier inside a template literal. *)
Definition template_id (i : UniqueId) : string :=
  match i with
  | IdNum n => NilZero.string_of_int (Z.to_int n)
  | IdStr s => s
  end.

(** [${id}] for the optional [id] of a message context. *)
Definition template_opt_id (i : option UniqueId) : string :=
  match i with
  | Some i => template_id i
  | None => "undefined"
  end.

(** [WithUniqueId]: every entity exposes its identifier. *)
Class WithUniqueId (DTO : Type) : Type := { id : DTO -> UniqueId }.

(** Plain data sent as a request body. *)
#[local] Set Warnings "-register-all".
Inductive JsValue : Type :=
| JNull
| JBool (b : bool)
| JNum (n : Z)
| JStr (s : string)
| JArr (items : list JsValue)
| JObj (props : list (string * JsValue)).

(** The run-time value of a [data] argument: an object, given by its own
    properties.  The static types [Omit<DTO,'id'>] and
    [Partial<Omit<DTO,'id'>>] do not forbid further properties on a value
    that is not a fresh object literal. *)
Definition JsObject : Type := list (string * JsValue).

Definition hasOwnProperty (o : JsObject) (key : string) : bool :=
  existsb (fun kv => String.eqb (fst kv) key) o.

Definition Url : Type := string.
Definition CrudResponseCode : Type := string.

(** ** Promises, the world, and the monad of effects *)

(** An object with a [message], such as an [Error] or an
    [HttpErrorResponse].  A value without [message] prints as "undefined"
    where the message is put into a template, and is the object whose
    message is that string. *)
Record JsError : Type := { error_message : string }.

(** A value that is thrown, or that a promise rejects with.  Nothing types
    it: it may be [undefined] or [null] as well as an object. *)
Inductive Thrown : Type :=
| ThrownUndefined
| ThrownNull
| ThrownObject (e : JsError).

(** The [TypeError] of a property read on [undefined] or [null]. *)
Definition TypeError_reading (property : string) (base : string) : Thrown :=
  ThrownObject
    {| error_message := "Cannot read properties of " ++ base
                        ++ " (reading '" ++ property ++ "')" |}.

(** [(error as Error).message]: the cast checks nothing. *)
Inductive Completion (A : Type) : Type :=
| Normal (value : A)
| Abrupt (thrown : Thrown).
Arguments Abrupt {A}.

Definition message_of (error : Thrown) : Completion string :=
  match error with
  | ThrownObject e => Normal (error_message e)
  | ThrownUndefined => Abrupt (TypeError_reading "message" "undefined")
  | ThrownNull => Abrupt (TypeError_reading "message" "null")
  end.

(** How a promise settles. *)
Inductive Settled (A : Type) : Type :=
| Resolved (value : A)
| Rejected (reason : Thrown).
Arguments Rejected {A}.

(** A call of a function that returns a promise: it returns the promise, or
    it throws before it does. *)
Definition Call (A : Type) : Type := Completion (Settled A).

Inductive HttpMethod : Type := POST | GET | PUT | DELETE.

Record HttpRequest : Type := {
  req_method : HttpMethod;
  req_url : Url;
  req_body : option JsObject
}.

(** What the code does to its surroundings. *)
Record World : Type := {
  requests : list HttpRequest;   (* HTTP requests issued, oldest first *)
  sink : list string;            (* state of the application logger *)
  warnings : list string         (* console.warn lines *)
}.

Definition M (A : Type) : Type := World -> A * World.

Definition ret {A} (a : A) : M A := fun w => (a, w).

Definition bind {A B} (c : M A) (k : A -> M B) : M B :=
  fun w => let (a, w') := c w in k a w'.

Declare Scope crud_scope.
Delimit Scope crud_scope with crud.
Notation "x <- c ;; k" := (bind c (fun x => k))
  (at level 61, c at next level, right associativity) : crud_scope.
Notation "c ;; k" := (bind c (fun _ => k))
  (at level 61, right associativity) : crud_scope.
Open Scope crud_scope.

(** Statements in sequence: the next one runs when the one before completed
    normally. *)
Definition and_then {A B} (c : M (Completion A)) (k : A -> M (Completion B))
    : M (Completion B) :=
  completed <- c ;;
  match completed with
  | Normal a => k a
  | Abrupt thrown => ret (Abrupt thrown)
  end.

Notation "x <-! c ;; k" := (and_then c (fun x => k))
  (at level 61, c at next level, right associativity) : crud_scope.
Notation "c ;;! k" := (and_then c (fun _ => k))
  (at level 61, right associativity) : crud_scope.

(** [try { body } catch (error) { handler }]. *)
Definition try_catch {A} (body : M (Completion A))
    (handler : Thrown -> M (Completion A)) : M (Completion A) :=
  completed <- body ;;
  match completed with
  | Normal a => ret (Normal a)
  | Abrupt error => handler error
  end.

(** The body of an [async] function settles the promise the function
    returns. *)
Definition async {A} (body : M (Completion A)) : M (Settled A) :=
  completed <- body ;;
  ret (match completed with
       | Normal a => Resolved a
       | Abrupt thrown => Rejected thrown
       end).

(** [await promise] inside an [async] function. *)
Definition await {A} (promise : M (Settled A)) : M (Completion A) :=
  settled <- promise ;;
  ret (match settled with
       | Resolved a => Normal a
       | Rejected reason => Abrupt reason
       end).

(** [await f(...)] inside an [async] function, for a function that returns a
    promise: a throw of the call and a rejection of the promise arrive the
    same way. *)
Definition await_call {A} (call : M (Call A)) : M (Settled A) :=
  completed <- call ;;
  ret (match completed with
       | Normal promise => promise
       | Abrupt thrown => Rejected thrown
       end).

(** ** The injected collaborators *)

(** [Logger]: an object whose [log], when it is there, consumes a line; it
    changes the state of the logger and returns, or throws. *)
Record Logger : Type := {
  log : option (string -> list string -> list string * option Thrown)
}.

(** [this.logger?.log?.(line)] with [logger: Logger | null].  The argument is
    evaluated when there is a [log] to call, and not otherwise. *)
Definition logger_log (logger : option Logger) (line : Completion string)
    : M (Completion unit) :=
  fun w =>
    match logger with
    | None => (Normal tt, w)
    | Some l =>
        match log l with
        | None => (Normal tt, w)
        | Some f =>
            match line with
            | Abrupt thrown => (Abrupt thrown, w)
            | Normal text =>
                (match snd (f text (sink w)) with
                 | None => Normal tt
                 | Some thrown => Abrupt thrown
                 end,
                 {| requests := requests w;
                    sink := fst (f text (sink w));
                    warnings := warnings w |})
            end
        end
    end.

(** A logger that meets [log(message: string): void]: every call returns. *)
Definition logger_returns (logger : option Logger) : Prop :=
  forall l f, logger = Some l -> log l = Some f ->
  forall text lines, snd (f text lines) = None.

(** The logger whose [log] is [f] and returns. *)
Definition returning (f : string -> list string -> list string) : Logger :=
  {| log := Some (fun text lines => (f text lines, None)) |}.

Definition has_log (logger : option Logger) : bool :=
  match logger with
  | Some l => match log l with Some _ => true | None => false end
  | None => false
  end.

(** [console.warn(line)]. *)
Definition console_warn (line : string) : M unit :=
  fun w => (tt, {| requests := requests w;
                   sink := sink w;
                   warnings := warnings w ++ [line] |}).

(** A cold observable of an [HttpClient] call: nothing happens until it is
    subscribed; then the request is issued and the first value or the error
    arrives.  An empty response body arrives as [null]. *)
Definition Observable (T : Type) : Type := M (Settled (option T)).

(** [firstValueFrom(obs$)] subscribes and returns the promise of the first
    value. *)
Definition firstValueFrom {T} (obs : Observable T) : M (Settled (option T)) := obs.

(** The HTTP client together with the backend behind it.  The type argument
    of [http.get<T>] is an assertion on the parsed body, so the client answers
    once per asserted type: [one] for [<DTO>], [many] for [<DTO[]>].  The
    answer may depend on the requests made before. *)
Record HttpClient (DTO : Type) : Type := {
  one : list HttpRequest -> HttpRequest -> Settled (option DTO);
  many : list HttpRequest -> HttpRequest -> Settled (option (list DTO))
}.

Definition send {T} (answer : list HttpRequest -> HttpRequest -> Settled (option T))
    (rq : HttpRequest) : Observable T :=
  fun w => (answer (requests w) rq,
            {| requests := requests w ++ [rq];
               sink := sink w;
               warnings := warnings w |}).

(** ** The CRUD consumer pattern *)

Inductive Status : Type := Success | Error.

Definition status_text (s : Status) : string :=
  match s with Success => "success" | Error => "error" end.

(** The object [{ status, code, message, payload }] that [createResponse]
    returns.  The interface of this name in the pattern file declares
    [status], [message] and [payload]; it has no member [code], and the file
    exports no [CrudResponseCode], which the service imports from it. *)
Record CrudConsumerResponse (P : Type) : Type := {
  status : Status;
  code : CrudResponseCode;
  message : string;
  payload : option P
}.

(** The two overloads of [read]: no target gives the collection, a target
    gives one entity. *)
Definition ReadPayload (DTO : Type) (target : Arg UniqueId) : Type :=
  match target with
  | Val _ => DTO
  | _ => list DTO
  end.

(** [interface CrudConsumer<Entity>], each method as a caller that awaits
    it sees it. *)
Record CrudConsumer (Entity : Type) : Type := {
  consumer_endpoint : Url;
  consumer_create : JsObject -> M (Settled (CrudConsumerResponse Entity));
  consumer_read : forall target : Arg UniqueId,
      M (Settled (CrudConsumerResponse (ReadPayload Entity target)));
  consumer_update : Entity -> JsObject -> M (Settled (CrudConsumerResponse Entity));
  consumer_delete : Entity -> M (Settled (CrudConsumerResponse Entity))
}.

(** ** The message factory *)

Record CrudMessageContext : Type := {
  entity : option string;
  ctx_id : option UniqueId
}.

Record CrudMetaMessage : Type := {
  meta_code : CrudResponseCode;
  meta_message : string
}.

Record CrudMetaPair : Type := {
  success : CrudMetaMessage;
  error : CrudMetaMessage
}.

(** [entity ?? fallback]. *)
Definition entity_or (fallback : string) (c : CrudMessageContext) : string :=
  match entity c with
  | Some e => e
  | None => fallback
  end.

Module CrudMeta.

Module success.
Definition create (c : CrudMessageContext) : CrudMetaMessage :=
  {| meta_code := "CRUD.CREATE.SUCCESS";
     meta_message := "Successfully created " ++ entity_or "entity" c |}.
Definition read (c : CrudMessageContext) : CrudMetaMessage :=
  {| meta_code := "CRUD.READ.SUCCESS";
     meta_message := "Successfully read " ++ entity_or "entity" c
                     ++ " with id: " ++ template_opt_id (ctx_id c) |}.
Definition readAll (c : CrudMessageContext) : CrudMetaMessage :=
  {| meta_code := "CRUD.READ_ALL.SUCCESS";
     meta_message := "Successfully read " ++ entity_or "entities" c |}.
Definition update (c : CrudMessageContext) : CrudMetaMessage :=
  {| meta_code := "CRUD.UPDATE.SUCCESS";
     meta_message := "Successfully updated " ++ entity_or "entity" c
                     ++ " with id: " ++ template_opt_id (ctx_id c) |}.
Definition delete (c : CrudMessageContext) : CrudMetaMessage :=
  {| meta_code := "CRUD.DELETE.SUCCESS";
     meta_message := "Successfully deleted " ++ entity_or "entity" c
                     ++ " with id: " ++ template_opt_id (ctx_id c) |}.
End success.

Module error.
Definition create (c : CrudMessageContext) : CrudMetaMessage :=
  {| meta_code := "CRUD.CREATE.ERROR";
     meta_message := "Error creating " ++ entity_or "entity" c |}.
Definition read (c : CrudMessageContext) : CrudMetaMessage :=
  {| meta_code := "CRUD.READ.ERROR";
     meta_message := "Error reading " ++ entity_or "entity" c
                     ++ " with id: " ++ template_opt_id (ctx_id c) |}.
Definition readAll (c : CrudMessageContext) : CrudMetaMessage :=
  {| meta_code := "CRUD.READ_ALL.ERROR";
     meta_message := "Error reading " ++ entity_or "entities" c |}.
Definition update (c : CrudMessageContext) : CrudMetaMessage :=
  {| meta_code := "CRUD.UPDATE.ERROR";
     meta_message := "Error updating " ++ entity_or "entity" c
                     ++ " with id: " ++ template_opt_id (ctx_id c) |}.
Definition delete (c : CrudMessageContext) : CrudMetaMessage :=
  {| meta_code := "CRUD.DELETE.ERROR";
     meta_message := "Error deleting " ++ entity_or "entity" c
                     ++ " with id: " ++ template_opt_id (ctx_id c) |}.
End error.

End CrudMeta.

(** ** The abstract CRUD service *)

Section CrudService.

Context {DTO : Type} `{WithUniqueId DTO}.

(** [abstract endpoint: Url]. *)
Variable endpoint : Url.
(** [protected entityName = "entity"], which concrete services override. *)
Variable entityName : string.
(** [private http = inject(HttpClient)]. *)
Variable http : HttpClient DTO.
(** [private logger = inject(APPLICATION_LOGGER, { optional: true })]. *)
Variable logger : option Logger.
(** The built-in [JSON.stringify], used for a log line only, on a body that
    [HttpClient] parsed from JSON. *)
Variable JSON_stringify : forall T : Type, option T -> string.

Definition url (i : Arg UniqueId) : Url :=
  match i with
  | Undefined | Null => endpoint
  | Val i => endpoint ++ "/" ++ template_id i
  end.

Definition http_post (u : Url) (data : JsObject) : Observable DTO :=
  send (one http) {| req_method := POST; req_url := u; req_body := Some data |}.
Definition http_get (u : Url) : Observable DTO :=
  send (one http) {| req_method := GET; req_url := u; req_body := None |}.
Definition http_get_all (u : Url) : Observable (list DTO) :=
  send (many http) {| req_method := GET; req_url := u; req_body := None |}.
Definition http_put (u : Url) (data : JsObject) : Observable DTO :=
  send (one http) {| req_method := PUT; req_url := u; req_body := Some data |}.
Definition http_delete (u : Url) : Observable DTO :=
  send (one http) {| req_method := DELETE; req_url := u; req_body := None |}.

Definition createResponse {P} (st : Status) (c : CrudResponseCode)
    (msg : string) (p : option P) : M (Completion (CrudConsumerResponse P)) :=
  logger_log logger
    (Normal ("[CrudService] Response created with status: " ++ status_text st
             ++ ", code: " ++ c ++ ", message: " ++ msg)) ;;!
  ret (Normal {| status := st; code := c; message := msg; payload := p |}).

(** The line of the [catch] block: its text needs [(error as Error).message]. *)
Definition error_line (meta : CrudMetaPair) (caught : Thrown)
    : Completion string :=
  match message_of caught with
  | Normal text =>
      Normal ("[CrudService] " ++ meta_message (error meta) ++ " - " ++ text)
  | Abrupt thrown => Abrupt thrown
  end.

(** [private async request<T>(obs$, meta)].  Whatever the [try] block
    throws, the rejection of the awaited promise or a throw of the logger,
    goes to the [catch] block; what the [catch] block throws rejects the
    promise of [request]. *)
Definition request {T} (obs : Observable T) (meta : CrudMetaPair)
    : M (Settled (CrudConsumerResponse T)) :=
  async
    (try_catch
       (result <-! await (firstValueFrom obs) ;;
        logger_log logger
          (Normal ("[CrudService] " ++ meta_message (success meta)
                   ++ " - Payload: " ++ JSON_stringify result ++ " }")) ;;!
        createResponse Success (meta_code (success meta))
          (meta_message (success meta)) result)
       (fun caught =>
          logger_log logger (error_line meta caught) ;;!
          createResponse Error (meta_code (error meta))
            (meta_message (error meta)) None)).

(** The public methods are not [async]: they log, outside any [try], and
    return the promise of [request]. *)
Definition create (data : JsObject) : M (Call (CrudConsumerResponse DTO)) :=
  logger_log logger (Normal ("[CrudService] Creating " ++ entityName)) ;;!
  promise <- request (http_post (url Undefined) data)
               {| success := CrudMeta.success.create
                               {| entity := Some entityName; ctx_id := None |};
                  error := CrudMeta.error.create
                             {| entity := Some entityName; ctx_id := None |} |} ;;
  ret (Normal promise).

(** The branch of [read] taken when the target is neither [undefined] nor
    [null]. *)
Definition read_one (target : UniqueId) : M (Call (CrudConsumerResponse DTO)) :=
  logger_log logger
    (Normal ("[CrudService] Reading " ++ entityName ++ " with id: "
             ++ template_id target)) ;;!
  promise <- request (http_get (url (Val target)))
               {| success := CrudMeta.success.read
                               {| entity := Some entityName;
                                  ctx_id := Some target |};
                  error := CrudMeta.error.read
                             {| entity := Some entityName;
                                ctx_id := Some target |} |} ;;
  ret (Normal promise).

(** The rest of [read]. *)
Definition read_all : M (Call (CrudConsumerResponse (list DTO))) :=
  logger_log logger (Normal ("[CrudService] Reading all " ++ entityName)) ;;!
  promise <- request (http_get_all (url Undefined))
               {| success := CrudMeta.success.readAll
                               {| entity := Some entityName; ctx_id := None |};
                  error := CrudMeta.error.readAll
                             {| entity := Some entityName; ctx_id := None |} |} ;;
  ret (Normal promise).

(** [read(target?)]: [if (target !== undefined && target !== null)]. *)
Definition read (target : Arg UniqueId)
    : M (Call (CrudConsumerResponse (ReadPayload DTO target))) :=
  match target
    return M (Call (CrudConsumerResponse (ReadPayload DTO target))) with
  | Val t => read_one t
  | Undefined => read_all
  | Null => read_all
  end.

Definition update (target : DTO) (data : JsObject)
    : M (Call (CrudConsumerResponse DTO)) :=
  logger_log logger
    (Normal ("[CrudService] Updating " ++ entityName ++ " with id: "
             ++ template_id (id target))) ;;!
  promise <- request (http_put (url (Val (id target))) data)
               {| success := CrudMeta.success.update
                               {| entity := Some entityName;
                                  ctx_id := Some (id target) |};
                  error := CrudMeta.error.update
                             {| entity := Some entityName;
                                ctx_id := Some (id target) |} |} ;;
  ret (Normal promise).

Definition delete (target : DTO) : M (Call (CrudConsumerResponse DTO)) :=
  logger_log logger
    (Normal ("[CrudService] Deleting " ++ entityName ++ " with id: "
             ++ template_id (id target))) ;;!
  promise <- request (http_delete (url (Val (id target))))
               {| success := CrudMeta.success.delete
                               {| entity := Some entityName;
                                  ctx_id := Some (id target) |};
                  error := CrudMeta.error.delete
                             {| entity := Some entityName;
                                ctx_id := Some (id target) |} |} ;;
  ret (Normal promise).

(** *** The five operations, as data

    A call of the public surface, the request it sends, the answer the
    backend gives to it, and the stable codes it may report. *)

Inductive Operation : Type :=
| OpCreate (data : JsObject)
| OpRead (target : Arg UniqueId)
| OpUpdate (target : DTO) (data : JsObject)
| OpDelete (target : DTO).

Definition PayloadOf (op : Operation) : Type :=
  match op with
  | OpRead target => ReadPayload DTO target
  | _ => DTO
  end.

Definition perform (op : Operation)
    : M (Call (CrudConsumerResponse (PayloadOf op))) :=
  match op return M (Call (CrudConsumerResponse (PayloadOf op))) with
  | OpCreate data => create data
  | OpRead target => read target
  | OpUpdate target data => update target data
  | OpDelete target => delete target
  end.

Definition request_of (op : Operation) : HttpRequest :=
  match op with
  | OpCreate data =>
      {| req_method := POST; req_url := endpoint; req_body := Some data |}
  | OpRead (Val t) =>
      {| req_method := GET; req_url := endpoint ++ "/" ++ template_id t;
         req_body := None |}
  | OpRead _ =>
      {| req_method := GET; req_url := endpoint; req_body := None |}
  | OpUpdate target data =>
      {| req_method := PUT;
         req_url := endpoint ++ "/" ++ template_id (id target);
         req_body := Some data |}
  | OpDelete target =>
      {| req_method := DELETE;
         req_url := endpoint ++ "/" ++ template_id (id target);
         req_body := None |}
  end.

(** The answer of the HTTP client to the request of [op], after the
    requests in [history]. *)
Definition answer_of (op : Operation) (history : list HttpRequest)
    : Settled (option (PayloadOf op)) :=
  match op return Settled (option (PayloadOf op)) with
  | OpRead target =>
      match target
        return Settled (option (ReadPayload DTO target)) with
      | Val t => one http history (request_of (OpRead (Val t)))
      | Undefined => many http history (request_of (OpRead Undefined))
      | Null => many http history (request_of (OpRead Null))
      end
  | OpCreate data => one http history (request_of (OpCreate data))
  | OpUpdate target data => one http history (request_of (OpUpdate target data))
  | OpDelete target => one http history (request_of (OpDelete target))
  end.

Definition success_code (op : Operation) : CrudResponseCode :=
  match op with
  | OpCreate _ => "CRUD.CREATE.SUCCESS"
  | OpRead (Val _) => "CRUD.READ.SUCCESS"
  | OpRead _ => "CRUD.READ_ALL.SUCCESS"
  | OpUpdate _ _ => "CRUD.UPDATE.SUCCESS"
  | OpDelete _ => "CRUD.DELETE.SUCCESS"
  end.

Definition error_code (op : Operation) : CrudResponseCode :=
  match op with
  | OpCreate _ => "CRUD.CREATE.ERROR"
  | OpRead (Val _) => "CRUD.READ.ERROR"
  | OpRead _ => "CRUD.READ_ALL.ERROR"
  | OpUpdate _ _ => "CRUD.UPDATE.ERROR"
  | OpDelete _ => "CRUD.DELETE.ERROR"
  end.

(** The service seen through the interface it implements. *)
Definition CrudService : CrudConsumer DTO :=
  {| consumer_endpoint := endpoint;
     consumer_create := fun data => await_call (create data);
     consumer_read := fun target => await_call (read target);
     consumer_update := fun target data => await_call (update target data);
     consumer_delete := fun target => await_call (delete target) |}.

End CrudService.

(** What the [catch] block of [request] throws, with a logger that returns,
    after the answer of the HTTP client: nothing, unless there is a [log] to
    call and the reason of the rejection has no [message] to read. *)
Definition catch_throws {T} (logger : option Logger)
    (answer : Settled (option T)) : option Thrown :=
  match answer with
  | Resolved _ => None
  | Rejected reason =>
      if has_log logger
      then match message_of reason with
           | Normal _ => None
           | Abrupt thrown => Some thrown
           end
      else None
  end.

(** The body a settled HTTP call delivers: the value when it resolved,
    nothing when it failed. *)
Definition body_of {T} (s : Settled (option T)) : option T :=
  match s with
  | Resolved body => body
  | Rejected _ => None
  end.

(** ** The product facade *)

(** A writable signal is the value it currently holds. *)
Definition WritableSignal (T : Type) : Type := T.
Definition signal {T} (initial : T) : WritableSignal T := initial.
Definition signal_set {T} (v : T) (_ : WritableSignal T) : WritableSignal T := v.
Definition signal_update {T} (f : T -> T) (s : WritableSignal T)
    : WritableSignal T := f s.

(** [type ProductMutation]; [READ_ALL_PRODUCT] carries the payload [null]. *)
Inductive ProductMutation (ProductDTO : Type) : Type :=
| READ_ALL_PRODUCT
| ADD_PRODUCT (payload : ProductDTO)
| REMOVE_PRODUCT (payload : ProductDTO)
| UPDATE_PRODUCT (payload : ProductDTO).
Arguments READ_ALL_PRODUCT {ProductDTO}.

(** [mutation.type]. *)
Definition mutation_type {ProductDTO} (m : ProductMutation ProductDTO) : string :=
  match m with
  | READ_ALL_PRODUCT => "READ_ALL_PRODUCT"
  | ADD_PRODUCT _ => "ADD_PRODUCT"
  | REMOVE_PRODUCT _ => "REMOVE_PRODUCT"
  | UPDATE_PRODUCT _ => "UPDATE_PRODUCT"
  end.

(** The cases the [switch] of [compute] has. *)
Definition handled {ProductDTO} (m : ProductMutation ProductDTO) : bool :=
  String.eqb (mutation_type m) "READ_ALL_PRODUCT"
  || String.eqb (mutation_type m) "REMOVE_PRODUCT".

Section ProductFacade.

Context {ProductDTO : Type} `{WithUniqueId ProductDTO}.

(** [private productService = inject(ProductService)]: the class is not
    part of the sources at hand; the facade uses it through the CRUD
    consumer interface only. *)
Variable productService : CrudConsumer ProductDTO.

(** [data = signal<ProductDTO[]>([])]. *)
Definition data : WritableSignal (list ProductDTO) := signal [].

(** [async compute(mutation)], from the current value of [data] to the
    settlement of the returned promise and the new value of [data].  An
    awaited promise that rejects makes [compute] reject at that point. *)
Definition compute (mutation : ProductMutation ProductDTO)
    (current : WritableSignal (list ProductDTO))
    : M (Settled unit * WritableSignal (list ProductDTO)) :=
  match mutation with
  | READ_ALL_PRODUCT =>
      awaited <- consumer_read productService Undefined ;;
      match awaited with
      | Resolved responseRead =>
          ret (Resolved tt,
               signal_set
                 (match payload responseRead with
                  | Some products => products
                  | None => []
                  end) current)
      | Rejected reason => ret (Rejected reason, current)
      end
  | REMOVE_PRODUCT target =>
      awaited <- consumer_delete productService target ;;
      match awaited with
      | Resolved responseDelete =>
          match status responseDelete with
          | Success =>
              ret (Resolved tt,
                   signal_update
                     (fun previousValue =>
                        filter (fun p => negb (strict_eq (id p) (id target)))
                               previousValue) current)
          | Error => ret (Resolved tt, current)
          end
      | Rejected reason => ret (Rejected reason, current)
      end
  | _ =>
      console_warn ("Unknown mutation type: " ++ mutation_type mutation) ;;
      ret (Resolved tt, current)
  end.

End ProductFacade.

(** ** Sample data *)

(** A product with the fields of the entity [{id: 1, name: "A"}]. *)
Record Product : Type := { product_id : UniqueId; name : string }.

#[export] Instance Product_WithUniqueId : WithUniqueId Product :=
  {| id := product_id |}.

Definition product_A : Product := {| product_id := IdNum 1; name := "A" |}.
Definition product_B : Product := {| product_id := IdNum 2; name := "B" |}.

(** A backend that answers every request with the same entity and the same
    collection. *)
Definition backend_echo : HttpClient Product :=
  {| one := fun _ _ => Resolved (Some product_A);
     many := fun _ _ => Resolved (Some [product_A; product_B]) |}.

(** A backend that answers [204 No Content]: the body is [null]. *)
Definition backend_no_content : HttpClient Product :=
  {| one := fun _ _ => Resolved None;
     many := fun _ _ => Resolved None |}.

(** A backend that is down. *)
Definition http_failure : Thrown :=
  ThrownObject {| error_message := "Http failure response" |}.

Definition backend_down : HttpClient Product :=
  {| one := fun _ _ => Rejected http_failure;
     many := fun _ _ => Rejected http_failure |}.

(** A client whose observables fail with [undefined], as after
    [throwError(() => undefined)] in an interceptor. *)
Definition backend_undefined : HttpClient Product :=
  {| one := fun _ _ => Rejected ThrownUndefined;
     many := fun _ _ => Rejected ThrownUndefined |}.

(** A logger that keeps the lines it is given. *)
Definition memory_logger : Logger :=
  returning (fun line lines => (lines ++ [line])%list).

(** A logger whose [log] keeps no line and throws. *)
Definition broken_pipe : Thrown :=
  ThrownObject {| error_message := "broken pipe" |}.

Definition throwing_logger : Logger :=
  {| log := Some (fun _ lines => (lines, Some broken_pipe)) |}.

(** A logger that keeps its lines and whose second call of [log] throws. *)
Definition logger_failing_once : Logger :=
  {| log := Some (fun text lines =>
                    ((lines ++ [text])%list,
                     if Nat.eqb (List.length lines) 1
                     then Some broken_pipe else None)) |}.

(** A stand-in for [JSON.stringify]. *)
Definition stringify_opaque (T : Type) (v : option T) : string :=
  match v with
  | Some _ => "{}"
  | None => "null"
  end.

(** Two calls of the service for products. *)
Definition create_A : @Operation Product := OpCreate [("name", JStr "A")].
Definition read_zero : @Operation Product := OpRead (Val (IdNum 0)).

Definition fresh_world : World :=
  {| requests := []; sink := []; warnings := [] |}.

Definition ProductService (http : HttpClient Product) (logger : option Logger)
    : CrudConsumer Product :=
  CrudService "/api/products" "product" http logger stringify_opaque.

(** ** The message factory as a table *)

(** The keys of [CrudMeta.success] and of [CrudMeta.error]. *)
Inductive CrudKind : Type := KCreate | KRead | KReadAll | KUpdate | KDelete.

(** [CrudMeta[outcome][kind]]. *)
Definition CrudMeta_lookup (outcome : Status) (kind : CrudKind)
    : CrudMessageContext -> CrudMetaMessage :=
  match outcome, kind with
  | Success, KCreate => CrudMeta.success.create
  | Success, KRead => CrudMeta.success.read
  | Success, KReadAll => CrudMeta.success.readAll
  | Success, KUpdate => CrudMeta.success.update
  | Success, KDelete => CrudMeta.success.delete
  | Error, KCreate => CrudMeta.error.create
  | Error, KRead => CrudMeta.error.read
  | Error, KReadAll => CrudMeta.error.readAll
  | Error, KUpdate => CrudMeta.error.update
  | Error, KDelete => CrudMeta.error.delete
  end.

(** The word each entry puts in place of a missing [entity]. *)
Definition entity_fallback (kind : CrudKind) : string :=
  match kind with
  | KReadAll => "entities"
  | _ => "entity"
  end.

(** ** Callers of the service and of the facade *)

Section Callers.

Context {DTO : Type} `{WithUniqueId DTO}.
Variable endpoint : Url.
Variable entityName : string.
Variable http : HttpClient DTO.
Variable logger : option Logger.
Variable JSON_stringify : forall T : Type, option T -> string.

(** The entry of the message factory an operation hands to [request], and
the context it builds it from. *)
Definition kind_of (op : @Operation DTO) : CrudKind :=
  match op with
  | OpCreate _ => KCreate
  | OpRead (Val _) => KRead
  | OpRead _ => KReadAll
  | OpUpdate _ _ => KUpdate
  | OpDelete _ => KDelete
  end.

Definition context_of (op : @Operation DTO) : CrudMessageContext :=
  match op with
  | OpCreate _ => {| entity := Some entityName; ctx_id := None |}
  | OpRead (Val t) => {| entity := Some entityName; ctx_id := Some t |}
  | OpRead _ => {| entity := Some entityName; ctx_id := None |}
  | OpUpdate target _ => {| entity := Some entityName; ctx_id := Some (id target) |}
  | OpDelete target => {| entity := Some entityName; ctx_id := Some (id target) |}
  end.

(** The line an operation hands to the logger before it sends its request. *)
Definition announce_line (op : @Operation DTO) : string :=
  match op with
  | OpCreate _ => "[CrudService] Creating " ++ entityName
  | OpRead (Val t) =>
      "[CrudService] Reading " ++ entityName ++ " with id: " ++ template_id t
  | OpRead _ => "[CrudService] Reading all " ++ entityName
  | OpUpdate target _ =>
      "[CrudService] Updating " ++ entityName ++ " with id: "
      ++ template_id (id target)
  | OpDelete target =>
      "[CrudService] Deleting " ++ entityName ++ " with id: "
      ++ template_id (id target)
  end.

(** The line [createResponse] hands to the logger for the envelope it
builds. *)
Definition created_line {P} (r : CrudConsumerResponse P) : string :=
  "[CrudService] Response created with status: " ++ status_text (status r)
  ++ ", code: " ++ code r ++ ", message: " ++ message r.

(** A client that calls the service several times, awaiting each call before
the next. *)
Fixpoint perform_each (ops : list (@Operation DTO)) : M unit :=
  match ops with
  | [] => ret tt
  | op :: rest =>
      perform endpoint entityName http logger JSON_stringify op ;;
      perform_each rest
  end.

End Callers.

Section FacadeCallers.

Context {ProductDTO : Type} `{WithUniqueId ProductDTO}.
Variable productService : CrudConsumer ProductDTO.

(** [ProductPage.ngOnInit]: the page asks its facade for all products. *)
Definition ngOnInit (current : WritableSignal (list ProductDTO))
    : M (Settled unit * WritableSignal (list ProductDTO)) :=
  compute productService READ_ALL_PRODUCT current.

(** Mutations dispatched one after the other, each settled before the next;
the value of [data] is carried from one to the next. *)
Fixpoint compute_each (mutations : list (ProductMutation ProductDTO))
    (current : WritableSignal (list ProductDTO))
    : M (WritableSignal (list ProductDTO)) :=
  match mutations with
  | [] => ret current
  | mutation :: rest =>
      settled <- compute productService mutation current ;;
      compute_each rest (snd settled)
  end.

End FacadeCallers.

(** A product service whose promises all reject. *)
Definition offline : Thrown := ThrownObject {| error_message := "offline" |}.

Definition rejecting_service : CrudConsumer Product :=
  {| consumer_endpoint := "/api/products";
     consumer_create := fun _ => ret (Rejected offline);
     consumer_read := fun _ => ret (Rejected offline);
     consumer_update := fun _ _ => ret (Rejected offline);
     consumer_delete := fun _ => ret (Rejected offline) |}.

(** A product whose identifier is the string ["1"]. *)
Definition product_one_as_text : Product :=
  {| product_id := IdStr "1"; name := "C" |}.

(** * Properties *)

(** ** Running the small monad *)

Lemma no_logger_returns : logger_returns None.
Proof. intros l f Hl. discriminate Hl. Qed.

Lemma returning_returns (f : string -> list string -> list string) :
  logger_returns (Some (returning f)).
Proof.
  intros l g Hl Hg text lines.
  injection Hl as <-. injection Hg as <-. reflexivity.
Qed.

Lemma returns_some (f : string -> list string -> list string * option Thrown) :
  logger_returns (Some {| log := Some f |}) ->
  forall text lines, snd (f text lines) = None.
Proof. intros Hret. exact (Hret _ f eq_refl eq_refl). Qed.

(** Unfolds one operation of the service down to the answer of the HTTP
    client and the calls of the logger. *)
Ltac run_service :=
  unfold perform, create, read, read_one, read_all, update, delete, request,
    createResponse, error_line, firstValueFrom, http_post, http_get,
    http_get_all, http_put, http_delete, send, url, async, await, await_call,
    try_catch, and_then, bind, ret, logger_log;
  cbn [requests sink warnings log fst snd message_of].

(** Uses that the calls of the logger return. *)
Ltac logs_return Hf :=
  repeat (rewrite Hf; cbn [requests sink warnings log fst snd message_of]).

(** Splits on the answer of the HTTP client: a body, or a rejection with
    [undefined], [null] or an object. *)
Ltac split_answer http :=
  match goal with
  | |- context [one http ?h ?r] => destruct (one http h r) as [? | [ | | ?]]
  | |- context [many http ?h ?r] => destruct (many http h r) as [? | [ | | ?]]
  end;
  cbn [message_of catch_throws has_log log fst snd body_of].

(** Splits on what each call of the logger does. *)
Ltac split_logs f :=
  repeat match goal with
         | |- context [snd (f ?text ?lines)] =>
             destruct (snd (f text lines)) as [[ | | ?] | ];
             cbn [requests sink warnings log fst snd message_of]
         end.

Section CrudServiceProperties.

Context {DTO : Type} `{WithUniqueId DTO}.
Variable endpoint : Url.
Variable entityName : string.
Variable http : HttpClient DTO.
Variable JSON_stringify : forall T : Type, option T -> string.

Local Abbreviation run logger op w :=
  (perform endpoint entityName http logger JSON_stringify op w).
Local Abbreviation answer op w := (answer_of endpoint http op (requests w)).

(** With a logger that returns, every operation issues exactly the request
[request_of] describes and leaves the console alone. *)
Lemma perform_trace (logger : option Logger) (op : Operation) (w : World) :
  logger_returns logger ->
  requests (snd (run logger op w)) = (requests w ++ [request_of endpoint op])%list
  /\ warnings (snd (run logger op w)) = warnings w.
Proof.
  intros Hret.
  destruct op as [data | [ | | t] | target data | target];
    destruct logger as [[[f|]]|];
    try pose proof (returns_some Hret) as Hf;
    run_service; try logs_return Hf; split_answer http; try logs_return Hf;
    split; reflexivity.
Qed.

(** With a logger that returns: what every operation settles to, read off
the answer of the HTTP client. *)
Lemma perform_result (logger : option Logger) (op : Operation) (w : World) :
  logger_returns logger ->
  match catch_throws logger (answer op w) with
  | Some thrown => fst (run logger op w) = Normal (Rejected thrown)
  | None =>
      exists r : CrudConsumerResponse (PayloadOf op),
        fst (run logger op w) = Normal (Resolved r)
        /\ match answer op w with
           | Resolved body =>
               status r = Success /\ code r = success_code op /\ payload r = body
           | Rejected _ =>
               status r = Error /\ code r = error_code op /\ payload r = None
           end
  end.
Proof.
  intros Hret.
  destruct op as [data | [ | | t] | target data | target];
    destruct logger as [[[f|]]|];
    try pose proof (returns_some Hret) as Hf;
    run_service; cbn [answer_of request_of success_code error_code];
    try logs_return Hf; split_answer http; try logs_return Hf;
    first [ reflexivity
          | eexists; (split; [reflexivity | repeat split]) ].
Qed.

(** With any logger: an envelope an operation resolves to is a success
envelope with the body of the answer, or an error envelope with a null
payload, and its code and message are those of the entry of the message
factory for the operation and the status. *)
Lemma resolved_envelope (logger : option Logger) (op : Operation) (w : World)
    (r : CrudConsumerResponse (PayloadOf op)) :
  fst (run logger op w) = Normal (Resolved r) ->
  (status r = Success /\ answer op w = Resolved (payload r)
   \/ status r = Error /\ payload r = None)
  /\ code r = meta_code (CrudMeta_lookup (status r) (kind_of op)
                           (context_of entityName op))
  /\ message r = meta_message (CrudMeta_lookup (status r) (kind_of op)
                                 (context_of entityName op)).
Proof.
  destruct op as [data | [ | | t] | target data | target];
    destruct logger as [[[f|]]|];
    run_service; cbn [answer_of request_of kind_of context_of];
    try split_logs f; split_answer http; try split_logs f;
    intros Hrun; try discriminate Hrun;
    injection Hrun as <-; cbn; auto.
Qed.

Lemma success_code_of_entry (op : @Operation DTO) (c : CrudMessageContext) :
  meta_code (CrudMeta_lookup Success (kind_of op) c) = success_code op.
Proof. destruct op as [data | [ | | t] | target data | target]; reflexivity. Qed.

Lemma error_code_of_entry (op : @Operation DTO) (c : CrudMessageContext) :
  meta_code (CrudMeta_lookup Error (kind_of op) c) = error_code op.
Proof. destruct op as [data | [ | | t] | target data | target]; reflexivity. Qed.

End CrudServiceProperties.

(** ** The claims on the service *)

Section CrudServiceClaims.

Context {DTO : Type} `{WithUniqueId DTO}.
Variable endpoint : Url.
Variable entityName : string.
Variable http : HttpClient DTO.
Variable JSON_stringify : forall T : Type, option T -> string.

Local Abbreviation run logger op w :=
  (perform endpoint entityName http logger JSON_stringify op w).
Local Abbreviation answer op w := (answer_of endpoint http op (requests w)).

(** C2, as the code has it: an envelope built after a successful request has
status "success" and carries the body of the response as it came, null
included; a non-null payload occurs only with status "success", and
status "error" only with a null payload. *)
Theorem successful_request_passes_body_through
    (logger : option Logger) (op : Operation) (w w' : World)
    (r : CrudConsumerResponse (PayloadOf op)) :
  run logger op w = (Normal (Resolved r), w') ->
  (logger_returns logger ->
   forall body, answer op w = Resolved body ->
     status r = Success /\ code r = success_code op /\ payload r = body)
  /\ (payload r <> None -> status r = Success)
  /\ (status r = Error -> payload r = None).
Proof.
  intros Hrun.
  assert (Hfst : fst (run logger op w) = Normal (Resolved r))
    by (rewrite Hrun; reflexivity).
  destruct (resolved_envelope endpoint entityName http JSON_stringify
              logger op w Hfst) as [Hshape _].
  split; [ | split].
  - intros Hret body Hbody.
    pose proof (perform_result endpoint entityName http JSON_stringify
                  op w Hret) as Hres.
    rewrite Hbody in Hres. cbn [catch_throws] in Hres.
    destruct Hres as [r0 [Hr0 Hfields]].
    rewrite Hfst in Hr0. injection Hr0 as <-.
    exact Hfields.
  - intros Hpayload.
    destruct Hshape as [[Hs _] | [_ Hp]]; [exact Hs | contradiction].
  - intros Herror.
    destruct Hshape as [[Hs _] | [_ Hp]]; [ | exact Hp].
    rewrite Hs in Herror. discriminate Herror.
Qed.

(** C3: [read] chooses by the presence of a defined, non-null argument.
Without argument, with [undefined] and with [null] it sends GET to the
endpoint and resolves to the collection; with any identifier, the falsy
[0] and [""] included, it sends GET to endpoint/id and resolves to a
single entity.  (The promise rejects instead in the one case in which the
[catch] block of [request] throws.) *)
Theorem read_dispatches_on_presence (logger : option Logger) (w : World) :
  logger_returns logger ->
  let get u := {| req_method := GET; req_url := u; req_body := None |} in
  let read_ := read endpoint entityName http logger JSON_stringify in
  (requests (snd (read_ Undefined w)) = (requests w ++ [get endpoint])%list
   /\ match catch_throws logger (many http (requests w) (get endpoint)) with
      | Some thrown => fst (read_ Undefined w) = Normal (Rejected thrown)
      | None =>
          exists r : CrudConsumerResponse (list DTO),
            fst (read_ Undefined w) = Normal (Resolved r)
            /\ payload r = body_of (many http (requests w) (get endpoint))
            /\ (code r = "CRUD.READ_ALL.SUCCESS"
                \/ code r = "CRUD.READ_ALL.ERROR")
      end)
  /\ (requests (snd (read_ Null w)) = (requests w ++ [get endpoint])%list
      /\ match catch_throws logger (many http (requests w) (get endpoint)) with
         | Some thrown => fst (read_ Null w) = Normal (Rejected thrown)
         | None =>
             exists r : CrudConsumerResponse (list DTO),
               fst (read_ Null w) = Normal (Resolved r)
               /\ payload r = body_of (many http (requests w) (get endpoint))
               /\ (code r = "CRUD.READ_ALL.SUCCESS"
                   \/ code r = "CRUD.READ_ALL.ERROR")
         end)
  /\ (forall i : UniqueId,
        requests (snd (read_ (Val i) w))
        = (requests w ++ [get (endpoint ++ "/" ++ template_id i)%string])%list
        /\ match catch_throws logger
                   (one http (requests w)
                      (get (endpoint ++ "/" ++ template_id i))) with
           | Some thrown => fst (read_ (Val i) w) = Normal (Rejected thrown)
           | None =>
               exists r : CrudConsumerResponse DTO,
                 fst (read_ (Val i) w) = Normal (Resolved r)
                 /\ payload r
                    = body_of (one http (requests w)
                                 (get (endpoint ++ "/" ++ template_id i)))
                 /\ (code r = "CRUD.READ.SUCCESS" \/ code r = "CRUD.READ.ERROR")
           end)
  /\ (truthy (IdNum 0) = false
      /\ url endpoint (Val (IdNum 0)) = endpoint ++ "/0")
  /\ (truthy (IdStr "") = false
      /\ url endpoint (Val (IdStr "")) = endpoint ++ "/").
Proof.
  intros Hret. cbv zeta.
  assert (Hbranch : forall target : Arg UniqueId,
             requests (snd (read endpoint entityName http logger
                              JSON_stringify target w))
             = (requests w ++ [request_of endpoint (OpRead target)])%list)
    by (intros target;
        apply (perform_trace endpoint entityName http JSON_stringify
                 (OpRead target) w Hret)).
  assert (Hresult : forall target : Arg UniqueId,
             match catch_throws logger
                     (answer_of endpoint http (OpRead target) (requests w)) with
             | Some thrown =>
                 fst (read endpoint entityName http logger JSON_stringify
                        target w) = Normal (Rejected thrown)
             | None =>
                 exists r,
                   fst (read endpoint entityName http logger JSON_stringify
                          target w) = Normal (Resolved r)
                   /\ payload r
                      = body_of (answer_of endpoint http (OpRead target)
                                   (requests w))
                   /\ (code r = success_code (@OpRead DTO target)
                       \/ code r = error_code (@OpRead DTO target))
             end).
  { intros target.
    pose proof (perform_result endpoint entityName http JSON_stringify
                  (OpRead target) w Hret) as Hres.
    destruct (catch_throws logger
                (answer_of endpoint http (OpRead target) (requests w)));
      [exact Hres | ].
    destruct Hres as [r [Hr Hfields]]. exists r. split; [exact Hr | ].
    destruct (answer_of endpoint http (OpRead target) (requests w));
      destruct Hfields as [_ [Hc Hp]]; cbn [body_of]; auto. }
  split; [ | split; [ | split; [ | split]]].
  - split; [exact (Hbranch Undefined) | exact (Hresult Undefined)].
  - split; [exact (Hbranch Null) | exact (Hresult Null)].
  - intros i. split; [exact (Hbranch (Val i)) | exact (Hresult (Val i))].
  - split; reflexivity.
  - split; reflexivity.
Qed.

(** C5, as the code has it: [update] sends one PUT to endpoint/target.id
whose body is the [data] argument as it was given; the identifier of the
target goes into the URL, and the body has an 'id' property exactly when
[data] has one. *)
Theorem update_sends_data_unchanged
    (logger : option Logger) (target : DTO) (data : JsObject) (w : World) :
  logger_returns logger ->
  let sent :=
    {| req_method := PUT;
       req_url := endpoint ++ "/" ++ template_id (id target);
       req_body := Some data |} in
  requests (snd (update endpoint entityName http logger JSON_stringify
                   target data w))
  = (requests w ++ [sent])%list
  /\ option_map (fun body => hasOwnProperty body "id") (req_body sent)
     = Some (hasOwnProperty data "id").
Proof.
  intros Hret. cbv zeta. split; [ | reflexivity].
  apply (perform_trace endpoint entityName http JSON_stringify
           (OpUpdate target data) w Hret).
Qed.

(** C6, on the side of the values: every envelope a CRUD operation resolves
to is the object [createResponse] builds, [{status, code, message, payload}],
with status "success" and the success code of the operation or status
"error" and its error code; [createResponse] stores its four arguments under
these four names. *)
Theorem every_envelope_has_status_and_code
    (logger : option Logger) (op : Operation) (w w' : World)
    (r : CrudConsumerResponse (PayloadOf op)) :
  run logger op w = (Normal (Resolved r), w') ->
  (status r = Success /\ code r = success_code op
   \/ status r = Error /\ code r = error_code op)
  /\ (forall (P : Type) (st : Status) (c : CrudResponseCode) (msg : string)
         (p : option P) (w0 wc : World) (built : CrudConsumerResponse P),
        createResponse logger st c msg p w0 = (Normal built, wc) ->
        built = {| status := st; code := c; message := msg; payload := p |}).
Proof.
  intros Hrun.
  assert (Hfst : fst (run logger op w) = Normal (Resolved r))
    by (rewrite Hrun; reflexivity).
  destruct (resolved_envelope endpoint entityName http JSON_stringify
              logger op w Hfst) as [Hshape [Hcode _]].
  split.
  - destruct Hshape as [[Hs _] | [Hs _]]; rewrite Hs in Hcode;
      [left | right]; (split; [exact Hs | ]); rewrite Hcode.
    + apply success_code_of_entry.
    + apply error_code_of_entry.
  - intros P st c msg p w0 wc built.
    unfold createResponse, and_then, bind, ret, logger_log.
    destruct logger as [[[f|]]|];
      cbn [requests sink warnings log fst snd]; try split_logs f;
      intros Hbuilt; try discriminate Hbuilt;
      injection Hbuilt as <- _; reflexivity.
Qed.

End CrudServiceClaims.

(** ** The service, operation by operation *)

Section CrudServiceFurther.

Context {DTO : Type} `{WithUniqueId DTO}.
Variable endpoint : Url.
Variable entityName : string.
Variable http : HttpClient DTO.
Variable JSON_stringify : forall T : Type, option T -> string.

Local Abbreviation run logger op w :=
  (perform endpoint entityName http logger JSON_stringify op w).
Local Abbreviation answer op w := (answer_of endpoint http op (requests w)).

(** X4: the code and the message of an envelope come from one entry of the
message factory: the entry of the operation that was called (read with a
target: read, without: readAll) under the outcome the envelope's status
names, built from the entity name of the service and the identifier of the
target.  This holds for every envelope an operation resolves to, whatever
the logger does; with a logger that returns the operation does resolve,
unless the [catch] block throws. *)
Theorem envelope_comes_from_matching_entry
    (logger : option Logger) (op : Operation) (w : World) :
  (forall (r : CrudConsumerResponse (PayloadOf op)) (w' : World),
     run logger op w = (Normal (Resolved r), w') ->
     code r
     = meta_code (CrudMeta_lookup (status r) (kind_of op)
                    (context_of entityName op))
     /\ message r
        = meta_message (CrudMeta_lookup (status r) (kind_of op)
                          (context_of entityName op)))
  /\ (logger_returns logger ->
      catch_throws logger (answer op w) = None ->
      exists r : CrudConsumerResponse (PayloadOf op),
        fst (run logger op w) = Normal (Resolved r)).
Proof.
  split.
  - intros r w' Hrun.
    assert (Hfst : fst (run logger op w) = Normal (Resolved r))
      by (rewrite Hrun; reflexivity).
    apply (resolved_envelope endpoint entityName http JSON_stringify
             logger op w Hfst).
  - intros Hret Hcatch.
    pose proof (perform_result endpoint entityName http JSON_stringify
                  op w Hret) as Hres.
    rewrite Hcatch in Hres. destruct Hres as [r [Hr _]].
    exists r. exact Hr.
Qed.

(** X5: [create] sends one POST to the endpoint whose body is [data] as it
was given, [delete] sends one DELETE without body to endpoint/target.id;
neither writes to the console. *)
Theorem create_and_delete_requests
    (logger : option Logger) (data : JsObject) (target : DTO) (w : World) :
  logger_returns logger ->
  let created := create endpoint entityName http logger JSON_stringify data w in
  let deleted := delete endpoint entityName http logger JSON_stringify target w in
  requests (snd created)
  = (requests w
     ++ [{| req_method := POST; req_url := endpoint; req_body := Some data |}])%list
  /\ requests (snd deleted)
     = (requests w
        ++ [{| req_method := DELETE;
               req_url := (endpoint ++ "/" ++ template_id (id target))%string;
               req_body := None |}])%list
  /\ warnings (snd created) = warnings w
  /\ warnings (snd deleted) = warnings w.
Proof.
  intros Hret. cbv zeta.
  destruct (perform_trace endpoint entityName http JSON_stringify
              (OpCreate data) w Hret) as [Hc Hcw].
  destruct (perform_trace endpoint entityName http JSON_stringify
              (OpDelete target) w Hret) as [Hd Hdw].
  repeat split; assumption.
Qed.

(** X6: the service neither caches nor merges calls: a sequence of calls
sends one request per call, in the order of the calls, equal calls
included. *)
Theorem perform_each_sends_every_request
    (logger : option Logger) (ops : list (@Operation DTO)) (w : World) :
  logger_returns logger ->
  let after :=
    snd (perform_each endpoint entityName http logger JSON_stringify ops w) in
  requests after = (requests w ++ map (request_of endpoint) ops)%list
  /\ warnings after = warnings w.
Proof.
  intros Hret. cbv zeta. revert w.
  induction ops as [ | op rest IH]; intros w.
  - cbn. rewrite app_nil_r. split; reflexivity.
  - cbn [perform_each map]. unfold bind.
    destruct (perform_trace endpoint entityName http JSON_stringify op w Hret)
      as [Hreq Hwarn].
    destruct (run logger op w) as [settled w1].
    cbn [snd] in Hreq, Hwarn.
    destruct (IH w1) as [IHreq IHwarn].
    rewrite IHreq, IHwarn, Hreq, Hwarn, <- app_assoc.
    split; reflexivity.
Qed.

(** X7: the lines a logger whose [log] returns is handed by one operation.
After a request that succeeded, and after one that failed with an object,
there are three, in this order: the line that announces the operation, a
line with the message of the envelope and the body received or the message
of the object caught, and the line [createResponse] writes, which reports
the status, the code and the message of the very envelope returned.  After
a request that failed with [undefined] or [null] there is the first line
only, and the promise rejects with the [TypeError] of reading [message]. *)
Theorem logger_lines_per_operation
    (f : string -> list string -> list string) (op : Operation) (w : World) :
  let logger := Some (returning f) in
  let announced := f (announce_line entityName op) (sink w) in
  match answer op w with
  | Resolved body =>
      exists r : CrudConsumerResponse (PayloadOf op),
        fst (run logger op w) = Normal (Resolved r)
        /\ sink (snd (run logger op w))
           = f (created_line r)
               (f ("[CrudService] " ++ message r ++ " - Payload: "
                   ++ JSON_stringify body ++ " }") announced)
  | Rejected reason =>
      match message_of reason with
      | Normal text =>
          exists r : CrudConsumerResponse (PayloadOf op),
            fst (run logger op w) = Normal (Resolved r)
            /\ sink (snd (run logger op w))
               = f (created_line r)
                   (f ("[CrudService] " ++ message r ++ " - " ++ text)
                      announced)
      | Abrupt thrown =>
          fst (run logger op w) = Normal (Rejected thrown)
          /\ sink (snd (run logger op w)) = announced
      end
  end.
Proof.
  cbv zeta. unfold returning.
  destruct op as [data | [ | | t] | target data | target]; run_service;
    cbn [answer_of request_of announce_line];
    split_answer http;
    first [ split; reflexivity | eexists; (split; reflexivity) ].
Qed.

(** X8: a logger object that has no [log] method is as good as no logger:
every operation gives the same result and leaves the same world. *)
Theorem logger_without_log_is_no_logger (op : Operation) (w : World) :
  run (Some {| log := None |}) op w = run None op w.
Proof.
  destruct op as [data | [ | | t] | target data | target]; reflexivity.
Qed.

(** X16: when the HTTP request behind a CRUD operation fails and the logger,
if there is one, returns, the promise the operation returns resolves to an
envelope with status "error", a null payload and the error code of the
operation, provided the reason is an object or there is no [log] to call;
with a [log] and a reason that is [undefined] or [null], the promise
rejects with the [TypeError] the [catch] block throws. *)
Theorem failed_request_resolves_to_error_envelope
    (logger : option Logger) (op : Operation) (w : World) (reason : Thrown) :
  logger_returns logger ->
  answer op w = Rejected reason ->
  (catch_throws logger (answer op w) = None
   <-> has_log logger = false \/ exists e, reason = ThrownObject e)
  /\ match catch_throws logger (answer op w) with
     | None =>
         exists r w',
           run logger op w = (Normal (Resolved r), w')
           /\ status r = Error
           /\ payload r = None
           /\ code r = error_code op
     | Some thrown =>
         exists w', run logger op w = (Normal (Rejected thrown), w')
     end.
Proof.
  intros Hret Hfail.
  pose proof (perform_result endpoint entityName http JSON_stringify
                op w Hret) as Hres.
  rewrite Hfail in *. split.
  - cbn [catch_throws]. destruct (has_log logger).
    + destruct reason as [ | | e]; cbn; split.
      * intros Hx. discriminate Hx.
      * intros [Hx | [e Hx]]; discriminate Hx.
      * intros Hx. discriminate Hx.
      * intros [Hx | [e Hx]]; discriminate Hx.
      * intros _. right. exists e. reflexivity.
      * intros _. reflexivity.
    + split; [intros _; left; reflexivity | reflexivity].
  - destruct (catch_throws logger (Rejected reason)) as [thrown | ].
    + exists (snd (run logger op w)). rewrite <- Hres.
      apply surjective_pairing.
    + destruct Hres as [r [Hrun [Hs [Hc Hp]]]].
      exists r, (snd (run logger op w)).
      repeat split; try assumption.
      rewrite <- Hrun. apply surjective_pairing.
Qed.

(** X17: a logger that returns does not change what an operation resolves
to.  When the [catch] block does not throw, a run with the logger and a run
without one, from worlds with the same request history, settle the same way
and send the same request; the run without logger always resolves and
leaves the logger state alone. *)
Theorem logger_does_not_change_envelope
    (l : Logger) (op : Operation) (w1 w2 : World) :
  logger_returns (Some l) ->
  requests w1 = requests w2 ->
  catch_throws (Some l) (answer op w1) = None ->
  fst (run (Some l) op w1) = fst (run None op w2)
  /\ (exists r, fst (run None op w2) = Normal (Resolved r))
  /\ requests (snd (run (Some l) op w1)) = requests (snd (run None op w2))
  /\ sink (snd (run None op w2)) = sink w2.
Proof.
  intros Hret Hsame.
  destruct op as [data | [ | | t] | target data | target];
    destruct l as [[f|]];
    try pose proof (returns_some Hret) as Hf;
    run_service; cbn [answer_of request_of]; rewrite Hsame;
    try logs_return Hf; split_answer http; try logs_return Hf;
    intros Hcatch; try discriminate Hcatch;
    (split; [reflexivity | split; [eexists; reflexivity | split; reflexivity]]).
Qed.

(** X18: the public methods log outside any [try]: when the call of [log]
that announces the operation throws, the method throws the same value
before it returns a promise, and no request is sent. *)
Theorem throwing_announcement_escapes
    (f : string -> list string -> list string * option Thrown)
    (op : Operation) (w : World) (thrown : Thrown) :
  snd (f (announce_line entityName op) (sink w)) = Some thrown ->
  run (Some {| log := Some f |}) op w
  = (Abrupt thrown,
     {| requests := requests w;
        sink := fst (f (announce_line entityName op) (sink w));
        warnings := warnings w |}).
Proof.
  intros Hthrows.
  destruct op as [data | [ | | t] | target data | target]; run_service;
    cbn [announce_line] in *; rewrite Hthrows; reflexivity.
Qed.

End CrudServiceFurther.

(** ** Strict equality of identifiers *)

Lemma strict_eq_true_iff (a b : UniqueId) : strict_eq a b = true <-> a = b.
Proof.
  destruct a as [n | s], b as [m | t]; cbn; split; intros Heq;
    try discriminate.
  - apply Z.eqb_eq in Heq. now subst.
  - injection Heq as ->. apply Z.eqb_refl.
  - apply String.eqb_eq in Heq. now subst.
  - injection Heq as ->. apply String.eqb_refl.
Qed.

Lemma strict_eq_false_iff (a b : UniqueId) : strict_eq a b = false <-> a <> b.
Proof.
  rewrite <- strict_eq_true_iff.
  destruct (strict_eq a b); split; intros Hx; try reflexivity;
    try discriminate; try (exfalso; apply Hx; reflexivity).
Qed.

(** ** The product facade *)

Section ProductFacadeProperties.

Context {ProductDTO : Type} `{WithUniqueId ProductDTO}.
Variable productService : CrudConsumer ProductDTO.

Local Abbreviation new_data mutation current w :=
  (snd (fst (compute productService mutation current w))).

(** C4, as the code has it: REMOVE_PRODUCT changes [data] only when the
envelope of [delete] has status "success", so an error envelope leaves
[data] as it was; READ_ALL_PRODUCT writes [data] whatever the status of
the envelope of [read] is: the payload when it is not null, the empty
list when it is. *)
Theorem compute_updates_by_mutation
    (target : ProductDTO) (current : list ProductDTO) (w : World) :
  (forall (responseDelete : CrudConsumerResponse ProductDTO) (wd : World),
     consumer_delete productService target w = (Resolved responseDelete, wd) ->
     status responseDelete = Error ->
     compute productService (REMOVE_PRODUCT target) current w
     = (Resolved tt, current, wd))
  /\ (new_data (REMOVE_PRODUCT target) current w <> current ->
      exists (responseDelete : CrudConsumerResponse ProductDTO) (wd : World),
        consumer_delete productService target w = (Resolved responseDelete, wd)
        /\ status responseDelete = Success)
  /\ (forall (responseRead : CrudConsumerResponse (list ProductDTO))
         (wr : World),
        consumer_read productService Undefined w = (Resolved responseRead, wr) ->
        compute productService READ_ALL_PRODUCT current w
        = (Resolved tt,
           match payload responseRead with
           | Some products => products
           | None => []
           end,
           wr)).
Proof.
  split; [ | split].
  - intros responseDelete wd Hdelete Herror.
    unfold compute, bind, ret, signal_update.
    rewrite Hdelete, Herror. reflexivity.
  - unfold compute, bind, ret, signal_update.
    destruct (consumer_delete productService target w)
      as [[responseDelete | reason] wd]; cbn.
    + destruct (status responseDelete) eqn:Hstatus; cbn; intros Hchanged.
      * exists responseDelete, wd. split; [reflexivity | exact Hstatus].
      * contradiction Hchanged. reflexivity.
    + intros Hchanged. contradiction Hchanged. reflexivity.
  - intros responseRead wr Hread.
    unfold compute, bind, ret, signal_set.
    rewrite Hread. reflexivity.
Qed.

(** C7: when [delete(e)] resolves to a success envelope, the mutation
    REMOVE_PRODUCT with payload [e] leaves no element in [data] whose id
    equals [e.id]; what remains are the other elements of the list, in
    their order. *)
Theorem remove_product_drops_entity
    (e : ProductDTO) (current : list ProductDTO) (w w' : World)
    (responseDelete : CrudConsumerResponse ProductDTO) :
  consumer_delete productService e w = (Resolved responseDelete, w') ->
  status responseDelete = Success ->
  exists remaining : list ProductDTO,
    compute productService (REMOVE_PRODUCT e) current w
    = (Resolved tt, remaining, w')
    /\ (forall p, In p remaining -> id p <> id e)
    /\ (forall p, In p remaining <-> In p current /\ id p <> id e).
Proof.
  intros Hdelete Hsuccess.
  exists (filter (fun p => negb (strict_eq (id p) (id e))) current).
  assert (Hkeep : forall p,
             In p (filter (fun p => negb (strict_eq (id p) (id e))) current)
             <-> In p current /\ id p <> id e).
  { intros p. rewrite filter_In, negb_true_iff, strict_eq_false_iff.
    reflexivity. }
  split; [ | split].
  - unfold compute, bind, ret, signal_update.
    rewrite Hdelete, Hsuccess. reflexivity.
  - intros p Hin. apply Hkeep in Hin. apply Hin.
  - exact Hkeep.
Qed.

(** C8: a mutation whose type the switch of [compute] has no case for
    (ADD_PRODUCT and UPDATE_PRODUCT) calls no CRUD operation, writes one
    warning to the console, resolves, and leaves [data] as it was. *)
Theorem unhandled_mutation_is_ignored
    (mutation : ProductMutation ProductDTO) (current : list ProductDTO)
    (w : World) :
  handled mutation = false ->
  compute productService mutation current w
  = (Resolved tt, current,
     {| requests := requests w;
        sink := sink w;
        warnings := warnings w
                    ++ ["Unknown mutation type: " ++ mutation_type mutation] |}).
Proof.
  intros Hunhandled.
  destruct mutation as [ | p | p | p]; try discriminate Hunhandled;
    reflexivity.
Qed.

(** C10: the value of [data] is a list at every moment.  It starts as the
    empty list; READ_ALL_PRODUCT sets it to the payload of the response when
    that is not null and to the empty list when it is null; REMOVE_PRODUCT
    keeps it or filters it; every other mutation keeps it. *)
Theorem data_is_always_a_list
    (mutation : ProductMutation ProductDTO) (current : list ProductDTO)
    (w : World) :
  @data ProductDTO = []
  /\ match mutation with
     | READ_ALL_PRODUCT =>
         match fst (consumer_read productService Undefined w) with
         | Resolved responseRead =>
             match payload responseRead with
             | Some products => new_data mutation current w = products
             | None => new_data mutation current w = []
             end
         | Rejected _ => new_data mutation current w = current
         end
     | REMOVE_PRODUCT target =>
         new_data mutation current w = current
         \/ new_data mutation current w
            = filter (fun p => negb (strict_eq (id p) (id target))) current
     | _ => new_data mutation current w = current
     end.
Proof.
  split; [reflexivity | ].
  destruct mutation as [ | p | target | p];
    unfold compute, bind, ret, signal_set, signal_update; cbn.
  - destruct (consumer_read productService Undefined w) as [[resp | reason] w1];
      cbn; [ | reflexivity].
    match goal with
    | |- match ?x with Some _ => _ | None => _ end => destruct x
    end; reflexivity.
  - reflexivity.
  - destruct (consumer_delete productService target w) as [[resp | reason] w1];
      cbn; [destruct (status resp) | ]; cbn; auto.
  - reflexivity.
Qed.

End ProductFacadeProperties.

(** * Further properties *)

(** ** Strings and decimal numerals *)

Lemma append_same_prefix (a s t : string) : a ++ s = a ++ t -> s = t.
Proof.
  induction a as [ | c a IH]; cbn; intros Heq.
  - exact Heq.
  - injection Heq as Heq. apply IH, Heq.
Qed.

Lemma append_grows (a : string) (c : Ascii.ascii) (s : string) :
  a ++ String c s <> a.
Proof.
  induction a as [ | x a IH]; cbn; intros Heq.
  - discriminate Heq.
  - injection Heq as Heq. apply IH, Heq.
Qed.

Lemma decimal_of_number_parses (n : Z) :
  NilZero.int_of_string (NilZero.string_of_int (Z.to_int n)) = Some (Z.to_int n).
Proof.
  destruct n as [ | p | p].
  - reflexivity.
  - apply NilZero.isi; cbn; intros Hx;
      first [ discriminate Hx
            | injection Hx as Hx;
              exact (DecimalPos.Unsigned.to_uint_nonnil p Hx) ].
  - apply NilZero.isi; cbn; intros Hx;
      first [ discriminate Hx
            | injection Hx as Hx;
              exact (DecimalPos.Unsigned.to_uint_nonnil p Hx) ].
Qed.

Lemma template_of_number_inj (n m : Z) :
  template_id (IdNum n) = template_id (IdNum m) -> n = m.
Proof.
  cbn. intros Heq.
  apply DecimalZ.to_int_inj.
  assert (Hsome : Some (Z.to_int n) = Some (Z.to_int m))
    by (rewrite <- !decimal_of_number_parses, Heq; reflexivity).
  injection Hsome as Hsome. exact Hsome.
Qed.

(** ** The message factory *)

(** X1: a response code names its entry of the message factory: two entries
    give the same code exactly when they are the same outcome of the same
    operation, whatever entity name and identifier the messages carry. *)
Theorem crud_code_identifies_entry
    (o o' : Status) (k k' : CrudKind) (c c' : CrudMessageContext) :
  meta_code (CrudMeta_lookup o k c) = meta_code (CrudMeta_lookup o' k' c')
  <-> o = o' /\ k = k'.
Proof.
  split.
  - destruct o, o', k, k'; cbn; intros Hx;
      first [ split; reflexivity | discriminate Hx ].
  - intros [<- <-]. destruct o, k; reflexivity.
Qed.

(** X2: a context without [entity] reads like one whose entity is "entity"
    ("entities" for readAll), and a context without [id] like one whose id
    is the string "undefined". *)
Theorem missing_context_fields_fall_back
    (o : Status) (k : CrudKind) (e : option string) (i : option UniqueId) :
  CrudMeta_lookup o k {| entity := None; ctx_id := i |}
  = CrudMeta_lookup o k {| entity := Some (entity_fallback k); ctx_id := i |}
  /\ CrudMeta_lookup o k {| entity := e; ctx_id := None |}
     = CrudMeta_lookup o k {| entity := e; ctx_id := Some (IdStr "undefined") |}.
Proof.
  destruct o, k; split; reflexivity.
Qed.

(** ** URLs *)

(** X3: the URL of a target is never the endpoint itself, and two targets
    share a URL exactly when their identifiers print alike: two safe integers
    only when equal, two strings only when equal, a safe integer and the
    string of its decimal numeral always. *)
Theorem url_separates_targets (endpoint : Url) (n m : Z) :
  safe_integer n ->
  safe_integer m ->
  (forall i, url endpoint (Val i) <> endpoint)
  /\ (forall i j, url endpoint (Val i) = url endpoint (Val j)
                  <-> template_id i = template_id j)
  /\ (url endpoint (Val (IdNum n)) = url endpoint (Val (IdNum m)) <-> n = m)
  /\ (forall s t, url endpoint (Val (IdStr s)) = url endpoint (Val (IdStr t))
                  <-> s = t)
  /\ url endpoint (Val (IdNum n))
     = url endpoint (Val (IdStr (template_id (IdNum n)))).
Proof.
  intros _ _.
  assert (Hurl : forall i j, url endpoint (Val i) = url endpoint (Val j)
                             <-> template_id i = template_id j).
  { intros i j. unfold url. split.
    - intros Heq. apply append_same_prefix in Heq.
      cbn in Heq. injection Heq as Heq. exact Heq.
    - intros ->. reflexivity. }
  split; [ | split; [exact Hurl | split; [ | split]]].
  - intros i. unfold url. cbn. apply append_grows.
  - rewrite Hurl. split.
    + apply template_of_number_inj.
    + intros ->. reflexivity.
  - intros s t. rewrite Hurl. cbn. reflexivity.
  - reflexivity.
Qed.

(** ** The facade, mutation by mutation *)

Lemma filter_twice {A} (keep : A -> bool) (l : list A) :
  filter keep (filter keep l) = filter keep l.
Proof.
  induction l as [ | a l IH]; cbn.
  - reflexivity.
  - destruct (keep a) eqn:Hkeep; cbn.
    + rewrite Hkeep, IH. reflexivity.
    + exact IH.
Qed.

Section FacadeFurther.

Context {ProductDTO : Type} `{WithUniqueId ProductDTO}.
Variable productService : CrudConsumer ProductDTO.

Local Abbreviation new_data mutation current w :=
  (snd (fst (compute productService mutation current w))).

(** X9: [compute] has no handler for a rejected promise: when the promise of
[read] rejects, the promise of [compute] for READ_ALL_PRODUCT rejects with
the same reason, and when the promise of [delete] rejects, so does the
promise of [compute] for REMOVE_PRODUCT; [data] keeps its value. *)
Theorem compute_rejects_with_its_service
    (e : ProductDTO) (current : list ProductDTO) (w : World) :
  (forall (reason : Thrown) (wr : World),
     consumer_read productService Undefined w = (Rejected reason, wr) ->
     compute productService READ_ALL_PRODUCT current w
     = (Rejected reason, current, wr))
  /\ (forall (reason : Thrown) (wd : World),
        consumer_delete productService e w = (Rejected reason, wd) ->
        compute productService (REMOVE_PRODUCT e) current w
        = (Rejected reason, current, wd)).
Proof.
  split.
  - intros reason wr Hread.
    unfold compute, bind, ret. rewrite Hread. reflexivity.
  - intros reason wd Hdelete.
    unfold compute, bind, ret. rewrite Hdelete. reflexivity.
Qed.

(** One mutation other than READ_ALL_PRODUCT keeps [data] or filters it. *)
Lemma compute_step_shrinks
    (mutation : ProductMutation ProductDTO) (current : list ProductDTO)
    (w : World) :
  mutation <> READ_ALL_PRODUCT ->
  incl (new_data mutation current w) current
  /\ List.length (new_data mutation current w) <= List.length current.
Proof.
  intros Hnot.
  destruct mutation as [ | p | target | p]; [contradiction | | | ];
    unfold compute, bind, ret, signal_update, console_warn; cbn.
  - split; [apply incl_refl | apply Nat.le_refl].
  - destruct (consumer_delete productService target w) as [[resp | reason] w1];
      cbn; [destruct (status resp) | ]; cbn;
      first [ split; [apply incl_filter | apply filter_length_le]
            | split; [apply incl_refl | apply Nat.le_refl] ].
  - split; [apply incl_refl | apply Nat.le_refl].
Qed.

(** X10: only READ_ALL_PRODUCT brings products in: after any sequence of
other mutations, whatever the product service answers, every product of
[data] was there before, and [data] is no longer than before. *)
Theorem mutations_without_read_add_no_product
    (mutations : list (ProductMutation ProductDTO))
    (current : list ProductDTO) (w : World) :
  Forall (fun mutation => mutation <> READ_ALL_PRODUCT) mutations ->
  incl (fst (compute_each productService mutations current w)) current
  /\ List.length (fst (compute_each productService mutations current w))
     <= List.length current.
Proof.
  intros Hnone. revert current w.
  induction Hnone as [ | mutation rest Hhead _ IH]; intros current w.
  - cbn. split; [apply incl_refl | apply Nat.le_refl].
  - cbn [compute_each]. unfold bind.
    destruct (compute_step_shrinks current w Hhead) as [Hincl Hlen].
    destruct (compute productService mutation current w) as [[settled next] w1].
    cbn [fst snd] in *.
    destruct (IH next w1) as [IHincl IHlen].
    split.
    + eapply incl_tran; eassumption.
    + eapply Nat.le_trans; eassumption.
Qed.

(** X11: removing a product a second time changes nothing: once
REMOVE_PRODUCT went through with a success envelope, the same mutation
dispatched again leaves [data] as the first one left it, whatever the second
[delete] answers. *)
Theorem remove_product_again_changes_nothing
    (e : ProductDTO) (current : list ProductDTO) (w w' : World)
    (responseDelete : CrudConsumerResponse ProductDTO) :
  consumer_delete productService e w = (Resolved responseDelete, w') ->
  status responseDelete = Success ->
  fst (compute_each productService [REMOVE_PRODUCT e; REMOVE_PRODUCT e]
         current w)
  = new_data (REMOVE_PRODUCT e) current w.
Proof.
  intros Hdelete Hsuccess.
  cbn [compute_each]. unfold compute, bind, ret, signal_update.
  rewrite Hdelete, Hsuccess. cbn [fst snd].
  destruct (consumer_delete productService e w') as [[resp | reason] w2];
    cbn; [destruct (status resp) | ]; cbn;
    first [ apply filter_twice | reflexivity ].
Qed.

(** X12: REMOVE_PRODUCT compares identifiers with strict equality: a product
whose id is a string stays in [data] when the removed entity has a number
as id, also when the string is the numeral of that number. *)
Theorem remove_product_compares_strictly
    (e p : ProductDTO) (n : Z) (s : string) (current : list ProductDTO)
    (w w' : World) (responseDelete : CrudConsumerResponse ProductDTO) :
  consumer_delete productService e w = (Resolved responseDelete, w') ->
  status responseDelete = Success ->
  id e = IdNum n ->
  id p = IdStr s ->
  In p current ->
  In p (new_data (REMOVE_PRODUCT e) current w).
Proof.
  intros Hdelete Hsuccess He Hp Hin.
  unfold compute, bind, ret, signal_update.
  rewrite Hdelete, Hsuccess. cbn [fst snd].
  apply filter_In. split; [exact Hin | ].
  rewrite He, Hp. reflexivity.
Qed.

End FacadeFurther.

(** ** The facade over the CRUD service *)

Section FacadeOverCrudService.

Context {ProductDTO : Type} `{WithUniqueId ProductDTO}.
Variable endpoint : Url.
Variable entityName : string.
Variable http : HttpClient ProductDTO.
Variable logger : option Logger.
Variable JSON_stringify : forall T : Type, option T -> string.

Local Abbreviation productService :=
  (CrudService endpoint entityName http logger JSON_stringify).
Local Abbreviation get_all :=
  {| req_method := GET; req_url := endpoint; req_body := None |}.
Local Abbreviation delete_of e :=
  {| req_method := DELETE;
     req_url := (endpoint ++ "/" ++ template_id (id e))%string;
     req_body := None |}.

(** Unfolds [compute] over the service. *)
Ltac run_facade :=
  unfold ngOnInit, compute, CrudService, consumer_read, consumer_delete,
    signal_set, signal_update;
  run_service.

(** X13: with a product service that is a [CrudService] and a logger that
returns, the promise of [compute] resolves for every mutation, every value
of [data] and every answer of the backend but one: when the request fails
with [undefined] or [null] and there is a [log] to call, the [catch] block
of [request] throws and the promise of [compute] rejects with what it
threw. *)
Theorem compute_over_CrudService_settles
    (mutation : ProductMutation ProductDTO) (current : list ProductDTO)
    (w : World) :
  logger_returns logger ->
  fst (fst (compute productService mutation current w))
  = match mutation with
    | READ_ALL_PRODUCT =>
        match catch_throws logger (many http (requests w) get_all) with
        | Some thrown => Rejected thrown
        | None => Resolved tt
        end
    | REMOVE_PRODUCT e =>
        match catch_throws logger (one http (requests w) (delete_of e)) with
        | Some thrown => Rejected thrown
        | None => Resolved tt
        end
    | _ => Resolved tt
    end.
Proof.
  intros Hret.
  destruct mutation as [ | p | target | p]; try reflexivity;
    destruct logger as [[[f|]]|];
    try pose proof (returns_some Hret) as Hf;
    run_facade; try logs_return Hf; split_answer http; try logs_return Hf;
    reflexivity.
Qed.

(** X14: with a product service that is a [CrudService], REMOVE_PRODUCT
sends one DELETE to endpoint/payload.id; when the request goes through,
with a body or with none, the products with that id leave [data]; when it
fails, [data] keeps its value. *)
Theorem remove_over_CrudService
    (e : ProductDTO) (current : list ProductDTO) (w : World) :
  logger_returns logger ->
  snd (fst (compute productService (REMOVE_PRODUCT e) current w))
  = match one http (requests w) (delete_of e) with
    | Resolved _ => filter (fun p => negb (strict_eq (id p) (id e))) current
    | Rejected _ => current
    end
  /\ fst (fst (compute productService (REMOVE_PRODUCT e) current w))
     = match catch_throws logger (one http (requests w) (delete_of e)) with
       | Some thrown => Rejected thrown
       | None => Resolved tt
       end
  /\ requests (snd (compute productService (REMOVE_PRODUCT e) current w))
     = (requests w ++ [delete_of e])%list.
Proof.
  intros Hret.
  destruct logger as [[[f|]]|];
    try pose proof (returns_some Hret) as Hf;
    run_facade; try logs_return Hf; split_answer http; try logs_return Hf;
    repeat split.
Qed.

(** X15: when the product page starts, with a product service that is a
[CrudService] and a logger that returns, it sends one GET to the endpoint
and [data] becomes the collection received, or the empty list when the body
is null or the request failed, whatever [data] held before; in the one case
in which the [catch] block of [request] throws, the promise of [compute]
rejects and [data] keeps its value. *)
Theorem ngOnInit_loads_the_collection
    (current : list ProductDTO) (w : World) :
  logger_returns logger ->
  fst (ngOnInit productService current w)
  = match catch_throws logger (many http (requests w) get_all) with
    | Some thrown => (Rejected thrown, current)
    | None =>
        (Resolved tt,
         match body_of (many http (requests w) get_all) with
         | Some products => products
         | None => []
         end)
    end
  /\ requests (snd (ngOnInit productService current w))
     = (requests w ++ [get_all])%list.
Proof.
  intros Hret.
  destruct logger as [[[f|]]|];
    try pose proof (returns_some Hret) as Hf;
    run_facade; try logs_return Hf; split_answer http; try logs_return Hf;
    split; reflexivity.
Qed.

End FacadeOverCrudService.

(** * Concrete runs *)

(** Shows that the calls of a given logger return. *)
Ltac returns_by_computation :=
  intros l f Hl Hf text lines;
  first [ discriminate Hl
        | injection Hl as <-; first [ discriminate Hf
                                    | injection Hf as <-; reflexivity ] ].

(** [read(0)] and [read("")] ask for one entity. *)
Example read_zero_targets_an_entity :
  requests (snd (read "/api/products" "product" backend_echo None
                   stringify_opaque (Val (IdNum 0)) fresh_world))
  = [{| req_method := GET; req_url := "/api/products/0"; req_body := None |}].
Proof. reflexivity. Qed.

Example read_empty_string_targets_an_entity :
  requests (snd (read "/api/products" "product" backend_echo None
                   stringify_opaque (Val (IdStr "")) fresh_world))
  = [{| req_method := GET; req_url := "/api/products/"; req_body := None |}].
Proof. reflexivity. Qed.

(** The spec's example: delete [{id: 1, name: "A"}], then REMOVE_PRODUCT. *)
Example remove_product_A :
  compute (ProductService backend_echo None) (REMOVE_PRODUCT product_A)
    [product_A; product_B] fresh_world
  = (Resolved tt, [product_B],
     {| requests := [{| req_method := DELETE; req_url := "/api/products/1";
                        req_body := None |}];
        sink := [];
        warnings := [] |}).
Proof. reflexivity. Qed.

(** A throw of [log] inside the [try] block is caught like a failed request:
    the request succeeded, and the envelope says "error". *)
Example throwing_log_turns_success_into_error :
  answer_of "/api/products" backend_echo create_A (requests fresh_world)
  = Resolved (Some product_A)
  /\ fst (perform "/api/products" "product" backend_echo
            (Some logger_failing_once) stringify_opaque create_A fresh_world)
     = Normal (Resolved {| status := Error;
                           code := "CRUD.CREATE.ERROR";
                           message := "Error creating product";
                           payload := None |}).
Proof. split; reflexivity. Qed.

(** C1, where the code fails it: a logger is configured and the observable
    of [http.post] fails with [undefined].  The [catch] block reads
    [(error as Error).message] for its log line, which throws, and the
    promise of [create] rejects; no envelope is returned. *)
Lemma create_rejects_on_undefined_reason :
  answer_of "/api/products" backend_undefined create_A (requests fresh_world)
  = Rejected ThrownUndefined
  /\ logger_returns (Some memory_logger)
  /\ fst (perform "/api/products" "product" backend_undefined
            (Some memory_logger) stringify_opaque create_A fresh_world)
     = Normal (Rejected (TypeError_reading "message" "undefined"))
  /\ forall r,
       fst (perform "/api/products" "product" backend_undefined
              (Some memory_logger) stringify_opaque create_A fresh_world)
       <> Normal (Resolved r).
Proof.
  split; [reflexivity | split; [returns_by_computation | split]].
  - reflexivity.
  - intros r Hx. discriminate Hx.
Qed.

(** C9, where the code fails it: the same [read()] against the same client,
    whose observable fails with [undefined].  Without logger the promise
    resolves to the error envelope; with a logger, whose [log] returns, it
    rejects. *)
Lemma logger_changes_outcome_on_undefined_reason :
  let op := @OpRead Product Undefined in
  logger_returns (Some memory_logger)
  /\ fst (perform "/api/products" "product" backend_undefined None
            stringify_opaque op fresh_world)
     = Normal (Resolved {| status := Error;
                           code := "CRUD.READ_ALL.ERROR";
                           message := "Error reading product";
                           payload := None |})
  /\ fst (perform "/api/products" "product" backend_undefined
            (Some memory_logger) stringify_opaque op fresh_world)
     = Normal (Rejected (TypeError_reading "message" "undefined"))
  /\ fst (perform "/api/products" "product" backend_undefined
            (Some memory_logger) stringify_opaque op fresh_world)
     <> fst (perform "/api/products" "product" backend_undefined None
               stringify_opaque op fresh_world).
Proof.
  cbv zeta.
  split; [returns_by_computation | split; [reflexivity | split]].
  - reflexivity.
  - intros Hx. discriminate Hx.
Qed.

(** Counterexample to C2 as stated: the backend answers a DELETE with an
    empty body; the request succeeds, the envelope has status "success", and
    its payload is null. *)
Lemma success_envelope_with_null_payload :
  answer_of "/api/products" backend_no_content (OpDelete product_A)
    (requests fresh_world) = Resolved None
  /\ exists r,
       fst (perform "/api/products" "product" backend_no_content None
              stringify_opaque (OpDelete product_A) fresh_world)
       = Normal (Resolved r)
       /\ status r = Success
       /\ payload r = None
       /\ ~ (payload r <> None <-> status r = Success).
Proof.
  split; [reflexivity | ].
  eexists. split; [reflexivity | ].
  cbn. split; [reflexivity | split; [reflexivity | ]].
  intros [_ Hback]. apply Hback; reflexivity.
Defined.

(** Witness of C2 as amended: [delete] against the echoing backend. *)
Lemma successful_request_passes_body_through_witness :
  exists r w',
    perform "/api/products" "product" backend_echo (Some memory_logger)
      stringify_opaque (OpDelete product_A) fresh_world
    = (Normal (Resolved r), w')
    /\ (logger_returns (Some memory_logger) ->
        forall body,
          answer_of "/api/products" backend_echo (OpDelete product_A)
            (requests fresh_world) = Resolved body ->
          status r = Success
          /\ code r = success_code (OpDelete product_A)
          /\ payload r = body)
    /\ (payload r <> None -> status r = Success)
    /\ (status r = Error -> payload r = None).
Proof.
  do 2 eexists. split; [reflexivity | ].
  eapply (successful_request_passes_body_through
            "/api/products" "product" backend_echo stringify_opaque
            (Some memory_logger) (OpDelete product_A) fresh_world).
  reflexivity.
Defined.

(** Witness of C3: [read()] against the echoing backend, with a logger. *)
Lemma read_dispatches_on_presence_witness :
  logger_returns (Some memory_logger)
  /\ requests (snd (read "/api/products" "product" backend_echo
                      (Some memory_logger) stringify_opaque Undefined
                      fresh_world))
     = [{| req_method := GET; req_url := "/api/products"; req_body := None |}]
  /\ requests (snd (read "/api/products" "product" backend_echo
                      (Some memory_logger) stringify_opaque (Val (IdNum 0))
                      fresh_world))
     = [{| req_method := GET; req_url := "/api/products/0"; req_body := None |}].
Proof.
  assert (Hret : logger_returns (Some memory_logger))
    by returns_by_computation.
  split; [exact Hret | ].
  destruct (read_dispatches_on_presence "/api/products" "product" backend_echo
              stringify_opaque fresh_world Hret)
    as [[Hall _] [_ [Hone _]]].
  split; [exact Hall | exact (proj1 (Hone (IdNum 0)))].
Defined.

(** Counterexample to C5 as stated: a [data] object that carries an 'id'
    property is sent as it is. *)
Lemma update_body_may_carry_id :
  let data := [("id", JNum 7); ("name", JStr "B")] in
  exists sent,
    requests (snd (update "/api/products" "product" backend_echo None
                     stringify_opaque product_A data fresh_world)) = [sent]
    /\ req_method sent = PUT
    /\ req_url sent = "/api/products/1"
    /\ req_body sent = Some data
    /\ hasOwnProperty data "id" = true.
Proof.
  cbv zeta. eexists. split; [reflexivity | ].
  repeat split.
Defined.

(** Witness of C5 as amended: an [update] with a logger. *)
Lemma update_sends_data_unchanged_witness :
  let data := [("name", JStr "B")] in
  logger_returns (Some memory_logger)
  /\ requests (snd (update "/api/products" "product" backend_echo
                      (Some memory_logger) stringify_opaque product_A data
                      fresh_world))
     = [{| req_method := PUT; req_url := "/api/products/1";
           req_body := Some data |}].
Proof.
  cbv zeta.
  assert (Hret : logger_returns (Some memory_logger))
    by returns_by_computation.
  split; [exact Hret | ].
  exact (proj1 (update_sends_data_unchanged "/api/products" "product"
                  backend_echo stringify_opaque product_A
                  [("name", JStr "B")] fresh_world Hret)).
Defined.

(** Witness of C6: [create] against the echoing backend. *)
Lemma every_envelope_has_status_and_code_witness :
  exists r w',
    perform "/api/products" "product" backend_echo None stringify_opaque
      create_A fresh_world = (Normal (Resolved r), w')
    /\ (status r = Success /\ code r = success_code create_A
        \/ status r = Error /\ code r = error_code create_A).
Proof.
  do 2 eexists. split; [reflexivity | ].
  match goal with
  | |- status ?r = _ /\ _ \/ _ =>
      refine (proj1 (@every_envelope_has_status_and_code
                       _ _ "/api/products" "product" backend_echo
                       stringify_opaque None create_A fresh_world _ r eq_refl))
  end.
Defined.

(** Counterexample to C4 as stated: [read] resolves to an error envelope and
    READ_ALL_PRODUCT replaces a list of one product by the empty list. *)
Lemma read_all_error_resets_data :
  let productService := ProductService backend_down None in
  exists responseRead w',
    consumer_read productService Undefined fresh_world
    = (Resolved responseRead, w')
    /\ status responseRead = Error
    /\ snd (fst (compute productService READ_ALL_PRODUCT [product_A] fresh_world))
       = []
    /\ snd (fst (compute productService READ_ALL_PRODUCT [product_A] fresh_world))
       <> [product_A].
Proof.
  cbv zeta. do 2 eexists. split; [reflexivity | ].
  split; [reflexivity | split; [reflexivity | discriminate]].
Defined.

(** Witness of C4 as amended: REMOVE_PRODUCT against the backend that is
    down, READ_ALL_PRODUCT against the echoing one. *)
Lemma compute_updates_by_mutation_witness :
  (exists responseDelete wd,
     consumer_delete (ProductService backend_down None) product_A fresh_world
     = (Resolved responseDelete, wd)
     /\ status responseDelete = Error
     /\ compute (ProductService backend_down None) (REMOVE_PRODUCT product_A)
          [product_A; product_B] fresh_world
        = (Resolved tt, [product_A; product_B], wd))
  /\ (exists responseRead wr,
        consumer_read (ProductService backend_echo None) Undefined fresh_world
        = (Resolved responseRead, wr)
        /\ compute (ProductService backend_echo None) READ_ALL_PRODUCT
             [product_B] fresh_world
           = (Resolved tt,
              match payload responseRead with
              | Some products => products
              | None => []
              end,
              wr)).
Proof.
  split.
  - do 2 eexists. split; [reflexivity | split; [reflexivity | ]].
    eapply (proj1 (compute_updates_by_mutation
                     (ProductService backend_down None) product_A
                     [product_A; product_B] fresh_world));
      reflexivity.
  - do 2 eexists. split; [reflexivity | ].
    eapply (proj2 (proj2 (compute_updates_by_mutation
                            (ProductService backend_echo None) product_A
                            [product_B] fresh_world)));
      reflexivity.
Defined.

(** Witness of C7: the spec's example. *)
Lemma remove_product_drops_entity_witness :
  let productService := ProductService backend_echo (Some memory_logger) in
  exists responseDelete w',
    consumer_delete productService product_A fresh_world
    = (Resolved responseDelete, w')
    /\ status responseDelete = Success
    /\ exists remaining,
         compute productService (REMOVE_PRODUCT product_A)
           [product_A; product_B] fresh_world
         = (Resolved tt, remaining, w')
         /\ (forall p, In p remaining -> id p <> id product_A)
         /\ (forall p, In p remaining
                       <-> In p [product_A; product_B] /\ id p <> id product_A).
Proof.
  cbv zeta. do 2 eexists.
  split; [reflexivity | ].
  split; [reflexivity | ].
  eapply (remove_product_drops_entity
            (ProductService backend_echo (Some memory_logger))
            product_A [product_A; product_B] fresh_world);
    reflexivity.
Defined.

(** Witness of C8: ADD_PRODUCT is declared and has no case. *)
Lemma unhandled_mutation_is_ignored_witness :
  handled (ADD_PRODUCT product_A) = false
  /\ compute (ProductService backend_echo None) (ADD_PRODUCT product_A)
       [product_B] fresh_world
     = (Resolved tt, [product_B],
        {| requests := [];
           sink := [];
           warnings := ["Unknown mutation type: ADD_PRODUCT"] |}).
Proof.
  split; [reflexivity | ].
  apply (unhandled_mutation_is_ignored
           (ProductService backend_echo None) (ADD_PRODUCT product_A)
           [product_B] fresh_world).
  reflexivity.
Defined.

(** ** Concrete runs of the further properties *)

(** Witness of X3: the identifiers 1 and 2. *)
Lemma url_separates_targets_witness :
  safe_integer 1
  /\ safe_integer 2
  /\ (url "/api/products" (Val (IdNum 1)) = url "/api/products" (Val (IdNum 2))
      <-> 1%Z = 2%Z)
  /\ url "/api/products" (Val (IdNum 1))
     = url "/api/products" (Val (IdStr "1")).
Proof.
  assert (H1 : safe_integer 1) by (unfold safe_integer; cbn; lia).
  assert (H2 : safe_integer 2) by (unfold safe_integer; cbn; lia).
  split; [exact H1 | split; [exact H2 | ]].
  destruct (url_separates_targets "/api/products" H1 H2)
    as [_ [_ [Hnum [_ Hsame]]]].
  split; [exact Hnum | exact Hsame].
Defined.

(** Witness of X4: [create] with a logger, against the backend that is
    down. *)
Lemma envelope_comes_from_matching_entry_witness :
  logger_returns (Some memory_logger)
  /\ catch_throws (Some memory_logger)
       (answer_of "/api/products" backend_down create_A (requests fresh_world))
     = None
  /\ exists r,
       fst (perform "/api/products" "product" backend_down
              (Some memory_logger) stringify_opaque create_A fresh_world)
       = Normal (Resolved r).
Proof.
  assert (Hret : logger_returns (Some memory_logger))
    by returns_by_computation.
  split; [exact Hret | split; [reflexivity | ]].
  exact (proj2 (envelope_comes_from_matching_entry
                  "/api/products" "product" backend_down stringify_opaque
                  (Some memory_logger) create_A fresh_world)
           Hret eq_refl).
Defined.

(** Witness of X5: [create] and [delete] with a logger. *)
Lemma create_and_delete_requests_witness :
  logger_returns (Some memory_logger)
  /\ requests (snd (create "/api/products" "product" backend_echo
                      (Some memory_logger) stringify_opaque
                      [("name", JStr "A")] fresh_world))
     = [{| req_method := POST; req_url := "/api/products";
           req_body := Some [("name", JStr "A")] |}]
  /\ requests (snd (delete "/api/products" "product" backend_echo
                      (Some memory_logger) stringify_opaque product_A
                      fresh_world))
     = [{| req_method := DELETE; req_url := "/api/products/1";
           req_body := None |}].
Proof.
  assert (Hret : logger_returns (Some memory_logger))
    by returns_by_computation.
  split; [exact Hret | ].
  destruct (create_and_delete_requests "/api/products" "product" backend_echo
              stringify_opaque [("name", JStr "A")] product_A fresh_world Hret)
    as [Hcreate [Hdelete _]].
  split; [exact Hcreate | exact Hdelete].
Defined.

(** Witness of X6: the same read twice, then a create. *)
Lemma perform_each_sends_every_request_witness :
  logger_returns (Some memory_logger)
  /\ requests (snd (perform_each "/api/products" "product" backend_echo
                      (Some memory_logger) stringify_opaque
                      [read_zero; read_zero; create_A] fresh_world))
     = [{| req_method := GET; req_url := "/api/products/0"; req_body := None |};
        {| req_method := GET; req_url := "/api/products/0"; req_body := None |};
        {| req_method := POST; req_url := "/api/products";
           req_body := Some [("name", JStr "A")] |}].
Proof.
  assert (Hret : logger_returns (Some memory_logger))
    by returns_by_computation.
  split; [exact Hret | ].
  exact (proj1 (perform_each_sends_every_request "/api/products" "product"
                  backend_echo stringify_opaque
                  [read_zero; read_zero; create_A] fresh_world Hret)).
Defined.

(** Witness of X9: the product service whose promises reject. *)
Lemma compute_rejects_with_its_service_witness :
  consumer_read rejecting_service Undefined fresh_world
  = (Rejected offline, fresh_world)
  /\ consumer_delete rejecting_service product_A fresh_world
     = (Rejected offline, fresh_world)
  /\ compute rejecting_service READ_ALL_PRODUCT [product_A] fresh_world
     = (Rejected offline, [product_A], fresh_world)
  /\ compute rejecting_service (REMOVE_PRODUCT product_A) [product_A] fresh_world
     = (Rejected offline, [product_A], fresh_world).
Proof.
  split; [reflexivity | split; [reflexivity | ]].
  destruct (compute_rejects_with_its_service rejecting_service product_A
              [product_A] fresh_world) as [Hread Hdelete].
  split; [apply Hread | apply Hdelete]; reflexivity.
Defined.

(** Witness of X10: a removal and an unhandled mutation. *)
Lemma mutations_without_read_add_no_product_witness :
  let mutations := [REMOVE_PRODUCT product_A; ADD_PRODUCT product_B] in
  let productService := ProductService backend_echo None in
  Forall (fun mutation => mutation <> READ_ALL_PRODUCT) mutations
  /\ incl (fst (compute_each productService mutations
                  [product_A; product_B] fresh_world))
          [product_A; product_B]
  /\ List.length (fst (compute_each productService mutations
                         [product_A; product_B] fresh_world))
     <= List.length [product_A; product_B].
Proof.
  cbv zeta.
  assert (Hnone : Forall (fun mutation => mutation <> READ_ALL_PRODUCT)
                    [REMOVE_PRODUCT product_A; ADD_PRODUCT product_B])
    by (repeat constructor; discriminate).
  split; [exact Hnone | ].
  exact (mutations_without_read_add_no_product
           (ProductService backend_echo None) [product_A; product_B]
           fresh_world Hnone).
Defined.

(** Witness of X11: product A removed twice. *)
Lemma remove_product_again_changes_nothing_witness :
  let productService := ProductService backend_echo None in
  exists responseDelete w',
    consumer_delete productService product_A fresh_world
    = (Resolved responseDelete, w')
    /\ status responseDelete = Success
    /\ fst (compute_each productService
              [REMOVE_PRODUCT product_A; REMOVE_PRODUCT product_A]
              [product_A; product_B] fresh_world)
       = snd (fst (compute productService (REMOVE_PRODUCT product_A)
                     [product_A; product_B] fresh_world)).
Proof.
  cbv zeta. do 2 eexists.
  split; [reflexivity | split; [reflexivity | ]].
  eapply (remove_product_again_changes_nothing
            (ProductService backend_echo None) product_A
            [product_A; product_B] fresh_world); reflexivity.
Defined.

(** Witness of X12: product A has the number 1 as id, another product the
    string "1". *)
Lemma remove_product_compares_strictly_witness :
  let productService := ProductService backend_echo None in
  exists responseDelete w',
    consumer_delete productService product_A fresh_world
    = (Resolved responseDelete, w')
    /\ status responseDelete = Success
    /\ id product_A = IdNum 1
    /\ id product_one_as_text = IdStr "1"
    /\ In product_one_as_text [product_A; product_one_as_text]
    /\ In product_one_as_text
         (snd (fst (compute productService (REMOVE_PRODUCT product_A)
                      [product_A; product_one_as_text] fresh_world))).
Proof.
  cbv zeta. do 2 eexists.
  split; [reflexivity | split; [reflexivity | ]].
  split; [reflexivity | split; [reflexivity | ]].
  split; [cbn; auto | ].
  eapply (remove_product_compares_strictly
            (ProductService backend_echo None) product_A product_one_as_text
            [product_A; product_one_as_text] fresh_world);
    first [ reflexivity | cbn; auto ].
Defined.


(** Witness of X13: READ_ALL_PRODUCT with a logger, against the backend
    that is down and against the client that fails with [undefined]. *)
Lemma compute_over_CrudService_settles_witness :
  logger_returns (Some memory_logger)
  /\ fst (fst (compute (ProductService backend_down (Some memory_logger))
                 READ_ALL_PRODUCT [product_A] fresh_world))
     = Resolved tt
  /\ fst (fst (compute (ProductService backend_undefined (Some memory_logger))
                 READ_ALL_PRODUCT [product_A] fresh_world))
     = Rejected (TypeError_reading "message" "undefined").
Proof.
  assert (Hret : logger_returns (Some memory_logger))
    by returns_by_computation.
  split; [exact Hret | split].
  - exact (compute_over_CrudService_settles "/api/products" "product"
             backend_down stringify_opaque READ_ALL_PRODUCT [product_A]
             fresh_world Hret).
  - exact (compute_over_CrudService_settles "/api/products" "product"
             backend_undefined stringify_opaque READ_ALL_PRODUCT [product_A]
             fresh_world Hret).
Defined.

(** Witness of X14: a DELETE answered without body removes the product. *)
Lemma remove_over_CrudService_witness :
  logger_returns (Some memory_logger)
  /\ snd (fst (compute (ProductService backend_no_content (Some memory_logger))
                 (REMOVE_PRODUCT product_A) [product_A; product_B]
                 fresh_world))
     = [product_B].
Proof.
  assert (Hret : logger_returns (Some memory_logger))
    by returns_by_computation.
  split; [exact Hret | ].
  exact (proj1 (remove_over_CrudService "/api/products" "product"
                  backend_no_content stringify_opaque product_A
                  [product_A; product_B] fresh_world Hret)).
Defined.

(** Witness of X15: the page starts against the echoing backend and
    against the client that fails with [undefined]. *)
Lemma ngOnInit_loads_the_collection_witness :
  logger_returns (Some memory_logger)
  /\ fst (ngOnInit (ProductService backend_echo (Some memory_logger))
            [] fresh_world)
     = (Resolved tt, [product_A; product_B])
  /\ fst (ngOnInit (ProductService backend_undefined (Some memory_logger))
            [product_B] fresh_world)
     = (Rejected (TypeError_reading "message" "undefined"), [product_B]).
Proof.
  assert (Hret : logger_returns (Some memory_logger))
    by returns_by_computation.
  split; [exact Hret | split].
  - exact (proj1 (ngOnInit_loads_the_collection "/api/products" "product"
                    backend_echo stringify_opaque [] fresh_world Hret)).
  - exact (proj1 (ngOnInit_loads_the_collection "/api/products" "product"
                    backend_undefined stringify_opaque [product_B]
                    fresh_world Hret)).
Defined.

(** Witness of X16: [create] against the backend that is down. *)
Lemma failed_request_resolves_to_error_envelope_witness :
  logger_returns (Some memory_logger)
  /\ answer_of "/api/products" backend_down create_A (requests fresh_world)
     = Rejected http_failure
  /\ exists r w',
       perform "/api/products" "product" backend_down (Some memory_logger)
         stringify_opaque create_A fresh_world
       = (Normal (Resolved r), w')
       /\ status r = Error
       /\ payload r = None
       /\ code r = error_code create_A.
Proof.
  assert (Hret : logger_returns (Some memory_logger))
    by returns_by_computation.
  split; [exact Hret | split; [reflexivity | ]].
  exact (proj2 (failed_request_resolves_to_error_envelope
                  "/api/products" "product" backend_down stringify_opaque
                  create_A fresh_world Hret eq_refl)).
Defined.

(** Witness of X17: the same [read(0)] with and without logger. *)
Lemma logger_does_not_change_envelope_witness :
  let w1 := {| requests := []; sink := ["earlier line"]; warnings := [] |} in
  logger_returns (Some memory_logger)
  /\ requests w1 = requests fresh_world
  /\ catch_throws (Some memory_logger)
       (answer_of "/api/products" backend_echo read_zero (requests w1)) = None
  /\ fst (perform "/api/products" "product" backend_echo (Some memory_logger)
            stringify_opaque read_zero w1)
     = fst (perform "/api/products" "product" backend_echo None
              stringify_opaque read_zero fresh_world).
Proof.
  cbv zeta.
  assert (Hret : logger_returns (Some memory_logger))
    by returns_by_computation.
  split; [exact Hret | split; [reflexivity | split; [reflexivity | ]]].
  exact (proj1 (logger_does_not_change_envelope
                  "/api/products" "product" backend_echo stringify_opaque
                  read_zero
                  {| requests := []; sink := ["earlier line"]; warnings := [] |}
                  fresh_world Hret eq_refl eq_refl)).
Defined.

(** Witness of X18: the logger that throws at every call. *)
Lemma throwing_announcement_escapes_witness :
  perform "/api/products" "product" backend_echo (Some throwing_logger)
    stringify_opaque create_A fresh_world
  = (Abrupt broken_pipe, fresh_world).
Proof.
  exact (throwing_announcement_escapes "/api/products" "product" backend_echo
           stringify_opaque (fun _ lines => (lines, Some broken_pipe))
           create_A fresh_world eq_refl).
Defined.
